(** * A businesses-and-reviews CRUD service: model and properties

    Shallow embedding of [src/mydocker/main.py], a Flask application
    with one handler per (resource, operation) pair over two MySQL tables.

    - JSON request bodies and flat JSON responses are finite maps from
      strings to scalar values.
    - The store is explicit state: the two tables as lists of rows (in
      insertion order), their AUTO_INCREMENT counters, and the number of
      store calls left before the store starts to raise.
    - A handler is a function from the state of the world to an outcome
      and a new state.  Code inside [with db.connect() as conn:] runs in
      a state-and-exception monad over an open connection, whose
      uncommitted work is dropped when the block is left. *)

From stdpp Require Import base option list gmap strings pretty sorting.
From Stdlib Require Import ZArith Lia.

Local Open Scope Z_scope.

(* ===================================================================== *)
(** ** Values and responses *)

(** The JSON scalars a request body may carry and a row may give back:
    [null], an integer, a string.  Floats, booleans and nested containers
    are outside the model. *)
Inductive value : Type :=
  | VNone
  | VInt (z : Z)
  | VStr (s : string).

#[global] Instance value_eq_dec : EqDecision value.
Proof. solve_decision. Defined.

#[global] Instance value_inhabited : Inhabited value := populate VNone.

(** A Python [dict] with string keys: a request body, a row seen through
    [_asdict()], a flat response. *)
Abbreviation dict := (gmap string value).

(** [d[k]].  Every handler reads a key only after it tested [k in d]
    (or wrote it), so the [KeyError] branch is never taken; the total
    lookup gives [None] there. *)
Definition getitem (d : dict) (k : string) : value := d !!! k.

(** [str(n)] for a Python [int]. *)
Definition str (n : Z) : string := pretty n.

(** The exceptions the store layer raises. *)
Inductive exn : Type :=
  | OperationalError      (* no connection, connection lost *)
  | DataError             (* a parameter does not fit its column *)
  | IntegrityError        (* NOT NULL, FOREIGN KEY, exhausted key space *)
  | ProgrammingError      (* the statement is rejected *)
  | MultipleResultsFound. (* [one_or_none()] on several rows *)

#[global] Instance exn_eq_dec : EqDecision exn.
Proof. solve_decision. Defined.

(** What a handler hands to the framework as body. *)
Inductive body : Type :=
  | BEmpty                                           (* [''] *)
  | BObj (d : dict)                                  (* a flat object *)
  | BList (l : list dict)                            (* an array of objects *)
  | BPage (entries : list dict) (next : option string).
      (* [{'entries': [...], 'next': <url or None>}] *)

(** A handler either returns [(body, status)], or an exception leaves
    it and the framework answers in its place. *)
Inductive outcome : Type :=
  | Response (b : body) (status : Z)
  | Unhandled (e : exn).

(** The part of the ambient [request] the handlers read to build links. *)
Record request : Type := {
  host_url : string;
  url_root : string
}.

Definition BUSINESSES : string := "businesses".
Definition REVIEWS : string := "reviews".
Definition BUSINESS_NOT_FOUND : dict :=
  {[ "Error" := VStr "No business with this business_id exists" ]}.
Definition REVIEW_NOT_FOUND : dict :=
  {[ "Error" := VStr "No review with this review_id exists" ]}.

(** The three other error bodies, literals in the source. *)
Definition MISSING_ATTRIBUTES : dict :=
  {[ "Error" :=
       VStr "The request body is missing at least one of the required attributes" ]}.
Definition UNABLE_TO_CREATE : dict :=
  {[ "Error" := VStr "Unable to create lodging" ]}.
Definition ALREADY_REVIEWED : dict :=
  {[ "Error" :=
       VStr "You have already submitted a review for this business. You can update your previous review, or delete it and submit a new review" ]}.

(* ===================================================================== *)
(** ** The store *)

(** Rows, as the two [CREATE TABLE] statements declare them. *)
Record business_row : Type := {
  business_id : Z;       (* INT UNSIGNED AUTO_INCREMENT NOT NULL, PRIMARY KEY *)
  owner_id : Z;          (* INT NOT NULL *)
  name : string;         (* VARCHAR(50) NOT NULL *)
  street_address : string; (* VARCHAR(100) NOT NULL *)
  city : string;         (* VARCHAR(50) NOT NULL *)
  state : string;        (* VARCHAR(2) NOT NULL *)
  zip_code : Z           (* INTEGER NOT NULL *)
}.

Record review_row : Type := {
  review_id : Z;         (* INT UNSIGNED AUTO_INCREMENT NOT NULL, PRIMARY KEY *)
  user_id : Z;           (* INT NOT NULL *)
  review_business_id : Z; (* INT UNSIGNED NOT NULL, FOREIGN KEY, ON DELETE CASCADE *)
  stars : Z;             (* SMALLINT NOT NULL *)
  review_text : option string (* VARCHAR(1000), nullable *)
}.

Record tables : Type := {
  businesses : list business_row;
  reviews : list review_row;
  businesses_auto : Z;   (* next AUTO_INCREMENT value of [businesses] *)
  reviews_auto : Z       (* next AUTO_INCREMENT value of [reviews] *)
}.

(** The tables right after [create_business_table] and
    [create_reviews_table] on a fresh database. *)
Definition empty_tables : tables :=
  {| businesses := []; reviews := []; businesses_auto := 1; reviews_auto := 1 |}.

(** The world between two requests.  [fail_after = Some n]: the store
    serves [n] more calls (connect, execute, commit) and raises on every
    later one; [None]: it never raises for lack of a connection.
    [log] is what [logger.exception] wrote, latest first. *)
Record world : Type := {
  fail_after : option nat;
  committed : tables;
  log : list exn
}.

(** An open connection: the committed tables, the view of the running
    transaction, and the connection's [last_insert_id()]. *)
Record conn : Type := {
  calls_left : option nat;
  stored : tables;
  work : tables;
  last_insert_id : Z
}.

(** Computations on an open connection. *)
Definition M (A : Type) : Type := conn → (exn + A) * conn.

#[global] Instance M_ret : MRet M := λ A (a : A) c, (inr a, c).
#[global] Instance M_bind : MBind M := λ A B (k : A → M B) (m : M A) c,
  match m c with
  | (inl e, c') => (inl e, c')
  | (inr a, c') => k a c'
  end.

Definition raise {A : Type} (e : exn) : M A := λ c, (inl e, c).

(** Lifts a pure check that may raise. *)
Definition lift {A : Type} (r : exn + A) : M A := λ c, (r, c).

Definition get_work : M tables := λ c, (inr (work c), c).
Definition get_last_insert_id : M Z := λ c, (inr (last_insert_id c), c).
Definition put_work (t : tables) : M unit := λ c,
  (inr tt, {| calls_left := calls_left c; stored := stored c;
              work := t; last_insert_id := last_insert_id c |}).
Definition set_last_insert_id (n : Z) : M unit := λ c,
  (inr tt, {| calls_left := calls_left c; stored := stored c;
              work := work c; last_insert_id := n |}).

(** One round trip to the store. *)
Definition tick : M unit := λ c,
  match calls_left c with
  | None => (inr tt, c)
  | Some O => (inl OperationalError, c)
  | Some (S n) =>
      (inr tt, {| calls_left := Some n; stored := stored c;
                  work := work c; last_insert_id := last_insert_id c |})
  end.

(** The running transaction becomes the committed state. *)
Definition install_work : M unit := λ c,
  (inr tt, {| calls_left := calls_left c; stored := work c;
              work := work c; last_insert_id := last_insert_id c |}).

(** [conn.commit()]. *)
Definition commit : M unit := _ ← tick; install_work.

(** [with db.connect() as conn: body].  Leaving the block, by its end,
    by [return] or by an exception, closes the connection: what was not
    committed is gone. *)
Definition with_connect {A : Type} (block : M A) (w : world)
  : (exn + A) * world :=
  match fail_after w with
  | Some O => (inl OperationalError, w)
  | f =>
      let left := match f with Some (S n) => Some n | _ => None end in
      let '(r, c) := block {| calls_left := left; stored := committed w;
                              work := committed w; last_insert_id := 0 |} in
      (r, {| fail_after := calls_left c; committed := stored c; log := log w |})
  end.

(** *** Binding parameters to columns

    The store takes a parameter for a column when it is a value of the
    column's type and within its range, and raises otherwise.  MySQL's
    implicit conversions between numbers and strings are not modelled. *)

Definition bind_int (lo hi : Z) (v : value) : exn + Z :=
  match v with
  | VInt z => if bool_decide (lo ≤ z ≤ hi) then inr z else inl DataError
  | VStr _ => inl DataError
  | VNone => inl IntegrityError
  end.

Definition bind_INT : value → exn + Z := bind_int (-2147483648) 2147483647.
Definition bind_SMALLINT : value → exn + Z := bind_int (-32768) 32767.
Definition bind_INT_UNSIGNED : value → exn + Z := bind_int 0 4294967295.

Definition bind_VARCHAR (n : nat) (v : value) : exn + string :=
  match v with
  | VStr s => if bool_decide (String.length s ≤ n)%nat then inr s else inl DataError
  | VInt _ => inl DataError
  | VNone => inl IntegrityError
  end.

(** A nullable [VARCHAR(n)] column. *)
Definition bind_VARCHAR_NULL (n : nat) (v : value) : exn + option string :=
  match v with
  | VNone => inr None
  | _ => match bind_VARCHAR n v with inr s => inr (Some s) | inl e => inl e end
  end.

(** [column = :param] in a [WHERE] clause, for an integer column. *)
Definition sql_eq (column : Z) (param : value) : Prop := param = VInt column.

#[global] Instance sql_eq_dec column param : Decision (sql_eq column param).
Proof. unfold sql_eq. apply _. Defined.

(** *** Statements on [businesses] *)

(** [INSERT INTO businesses(owner_id, name, street_address, city, state,
    zip_code) VALUES (...)]. *)
Definition insert_business (p_owner_id p_name p_street_address p_city p_state
                            p_zip_code : value) : M unit :=
  _ ← tick;
  o ← lift (bind_INT p_owner_id);
  n ← lift (bind_VARCHAR 50 p_name);
  a ← lift (bind_VARCHAR 100 p_street_address);
  c ← lift (bind_VARCHAR 50 p_city);
  s ← lift (bind_VARCHAR 2 p_state);
  z ← lift (bind_INT p_zip_code);
  t ← get_work;
  let id := businesses_auto t in
  if bool_decide (id ≤ 4294967295) then
    _ ← put_work {| businesses := businesses t ++
                      [{| business_id := id; owner_id := o; name := n;
                          street_address := a; city := c; state := s;
                          zip_code := z |}];
                    reviews := reviews t;
                    businesses_auto := id + 1;
                    reviews_auto := reviews_auto t |};
    set_last_insert_id id
  else raise IntegrityError.

(** [SELECT last_insert_id()], read with [.scalar()]. *)
Definition select_last_insert_id : M Z :=
  _ ← tick; get_last_insert_id.

(** [SELECT ... FROM businesses WHERE business_id = :business_id], the
    parameter being the integer of the route. *)
Definition select_business (id : Z) : M (list business_row) :=
  _ ← tick;
  t ← get_work;
  mret (filter (λ r, business_id r = id) (businesses t)).

(** [Result.one_or_none()]. *)
Definition one_or_none {A : Type} (rows : list A) : M (option A) :=
  match rows with
  | [] => mret None
  | [r] => mret (Some r)
  | _ => raise MultipleResultsFound
  end.

(** [Result.scalar()]: the first column of the first row, or [None]. *)
Definition scalar {A : Type} (rows : list A) : option A := head rows.

(** [Row._asdict()] and [.mappings()] on a [businesses] row. *)
Definition business_asdict (r : business_row) : dict :=
  {[ "business_id" := VInt (business_id r);
     "owner_id" := VInt (owner_id r);
     "name" := VStr (name r);
     "street_address" := VStr (street_address r);
     "city" := VStr (city r);
     "state" := VStr (state r);
     "zip_code" := VInt (zip_code r) ]}.

(* ===================================================================== *)
(** ** Business handlers *)

(** [for field in fields: if field not in content: return ..., 400]:
    does the loop return? *)
Definition missing_field (fields : list string) (content : dict) : bool :=
  existsb (λ field, bool_decide (content !! field = None)) fields.

Definition business_fields : list string :=
  ["owner_id"; "name"; "street_address"; "city"; "state"; "zip_code"].

(** [logger.exception(e)]. *)
Definition logger_exception (e : exn) (w : world) : world :=
  {| fail_after := fail_after w; committed := committed w; log := e :: log w |}.

(** POST /businesses *)
Definition create_business (req : request) (business_content : dict)
    (w : world) : outcome * world :=
  if missing_field business_fields business_content then
    (Response (BObj MISSING_ATTRIBUTES) 400, w)
  else
    match with_connect
            (_ ← insert_business (getitem business_content "owner_id")
                                 (getitem business_content "name")
                                 (getitem business_content "street_address")
                                 (getitem business_content "city")
                                 (getitem business_content "state")
                                 (getitem business_content "zip_code");
             id ← select_last_insert_id;
             _ ← commit;
             mret id) w with
    | (inl e, w') =>
        (Response (BObj UNABLE_TO_CREATE) 500, logger_exception e w')
    | (inr id, w') =>
        let business_url := host_url req +:+ BUSINESSES +:+ "/" +:+ str id in
        (Response (BObj
           {[ "id" := VInt id;
              "owner_id" := getitem business_content "owner_id";
              "name" := getitem business_content "name";
              "street_address" := getitem business_content "street_address";
              "city" := getitem business_content "city";
              "state" := getitem business_content "state";
              "zip_code" := getitem business_content "zip_code";
              "self" := VStr business_url ]}) 201, w')
    end.

(** What a handler without [try] does with the result of its block. *)
Definition respond (r : (exn + body * Z) * world) : outcome * world :=
  match r with
  | (inl e, w') => (Unhandled e, w')
  | (inr (b, status), w') => (Response b status, w')
  end.

(** [str(v)] for a value. *)
Definition str_value (v : value) : string :=
  match v with
  | VNone => "None"
  | VInt n => str n
  | VStr s => s
  end.

(** GET /businesses/<int:id> *)
Definition get_business (req : request) (id : Z) (w : world)
  : outcome * world :=
  respond (with_connect
    (rows ← select_business id;
     row ← one_or_none rows;
     match row with
     | None => mret (BObj BUSINESS_NOT_FOUND, 404)
     | Some row =>
         let business := business_asdict row in
         let business := delete "business_id" business in
         let business := <["id" := VInt id]> business in
         let business :=
           <["self" := VStr (url_root req +:+ BUSINESSES +:+ "/" +:+
                             str_value (getitem business "id"))]> business in
         mret (BObj business, 200)
     end) w).

(** [ORDER BY business_id]. *)
Definition by_business_id (a b : business_row) : Prop :=
  business_id a ≤ business_id b.

#[global] Instance by_business_id_dec a b : Decision (by_business_id a b).
Proof. unfold by_business_id. apply _. Defined.

(** The largest argument [LIMIT] and [OFFSET] take. *)
Definition LIMIT_MAX : Z := 18446744073709551615.

(** [SELECT ... FROM businesses ORDER BY business_id LIMIT :limit OFFSET
    :offset].  MySQL takes only unsigned integers after [LIMIT] and
    [OFFSET] and rejects the statement otherwise. *)
Definition select_businesses_page (limit offset : Z) : M (list business_row) :=
  _ ← tick;
  if bool_decide (0 ≤ limit ≤ LIMIT_MAX ∧ 0 ≤ offset ≤ LIMIT_MAX) then
    t ← get_work;
    mret (take (Z.to_nat limit)
            (drop (Z.to_nat offset)
               (merge_sort by_business_id (businesses t))))
  else raise ProgrammingError.

(** The object built for a row in the two listings of businesses. *)
Definition business_entry (req : request) (row : business_row) : dict :=
  {[ "id" := VInt (business_id row);
     "owner_id" := VInt (owner_id row);
     "name" := VStr (name row);
     "street_address" := VStr (street_address row);
     "city" := VStr (city row);
     "state" := VStr (state row);
     "zip_code" := VInt (zip_code row);
     "self" := VStr (url_root req +:+ BUSINESSES +:+ "/" +:+
                     str (business_id row)) ]}.

(** The link to the page with the given [limit] and [offset]. *)
Definition page_url (req : request) (limit offset : Z) : string :=
  url_root req +:+ BUSINESSES +:+ "?limit=" +:+ str limit +:+
  "&offset=" +:+ str offset.

(** GET /businesses.  [offset] and [limit] are the query parameters as
    [int(...)] read them, [None] when the request has none; a parameter
    that [int] rejects ends the request before any of this runs. *)
Definition get_all_businesses (req : request) (offset limit : option Z)
    (w : world) : outcome * world :=
  let offset := default 0 offset in
  let limit := default 3 limit in
  respond (with_connect
    (rows ← select_businesses_page limit offset;
     let businesses := map (business_entry req) rows in
     let next :=
       if bool_decide (Z.of_nat (length businesses) < limit) then None
       else
         let offset := offset + limit in
         Some (page_url req limit offset) in
     mret (BPage businesses next, 200)) w).

(** [UPDATE businesses SET owner_id = ..., zip_code = ... WHERE
    business_id = :business_id]. *)
Definition update_business (id : Z) (p_owner_id p_name p_street_address
    p_city p_state p_zip_code : value) : M unit :=
  _ ← tick;
  o ← lift (bind_INT p_owner_id);
  n ← lift (bind_VARCHAR 50 p_name);
  a ← lift (bind_VARCHAR 100 p_street_address);
  c ← lift (bind_VARCHAR 50 p_city);
  s ← lift (bind_VARCHAR 2 p_state);
  z ← lift (bind_INT p_zip_code);
  t ← get_work;
  put_work {| businesses :=
                map (λ r, if bool_decide (business_id r = id)
                          then {| business_id := business_id r; owner_id := o;
                                  name := n; street_address := a; city := c;
                                  state := s; zip_code := z |}
                          else r) (businesses t);
              reviews := reviews t;
              businesses_auto := businesses_auto t;
              reviews_auto := reviews_auto t |}.

(** PUT /businesses/<int:id> *)
Definition edit_business (req : request) (id : Z) (content : dict)
    (w : world) : outcome * world :=
  if missing_field business_fields content then
    (Response (BObj MISSING_ATTRIBUTES) 400, w)
  else
    respond (with_connect
      (rows ← select_business id;
       business ← one_or_none rows;
       match business with
       | None => mret (BObj BUSINESS_NOT_FOUND, 404)
       | Some _ =>
           _ ← update_business id (getitem content "owner_id")
                 (getitem content "name")
                 (getitem content "street_address")
                 (getitem content "city")
                 (getitem content "state")
                 (getitem content "zip_code");
           _ ← commit;
           let business_url := url_root req +:+ BUSINESSES +:+ "/" +:+ str id in
           mret (BObj
             {[ "id" := VInt id;
                "owner_id" := getitem content "owner_id";
                "name" := getitem content "name";
                "street_address" := getitem content "street_address";
                "city" := getitem content "city";
                "state" := getitem content "state";
                "zip_code" := getitem content "zip_code";
                "self" := VStr business_url ]}, 200)
       end) w).

(** [DELETE FROM businesses WHERE business_id = :business_id]; gives
    [rowcount].  The reviews of a deleted business go with it (ON DELETE
    CASCADE) and are not counted. *)
Definition delete_business_rows (id : Z) : M nat :=
  _ ← tick;
  t ← get_work;
  let rowcount := length (filter (λ r, business_id r = id) (businesses t)) in
  _ ← put_work {| businesses := filter (λ r, business_id r ≠ id) (businesses t);
                  reviews := if bool_decide (rowcount = 0%nat) then reviews t
                             else filter (λ r, review_business_id r ≠ id)
                                    (reviews t);
                  businesses_auto := businesses_auto t;
                  reviews_auto := reviews_auto t |};
  mret rowcount.

(** DELETE /businesses/<int:id> *)
Definition delete_lodging (id : Z) (w : world) : outcome * world :=
  respond (with_connect
    (rowcount ← delete_business_rows id;
     _ ← commit;
     if bool_decide (rowcount = 1%nat) then mret (BEmpty, 204)
     else mret (BObj BUSINESS_NOT_FOUND, 404)) w).

(** [SELECT ... FROM businesses WHERE owner_id = :owner_id]. *)
Definition select_businesses_of_owner (owner : Z) : M (list business_row) :=
  _ ← tick;
  t ← get_work;
  mret (filter (λ r, owner_id r = owner) (businesses t)).

(** GET /owners/<int:owner_id>/businesses *)
Definition businesses_for_owner (req : request) (owner : Z) (w : world)
  : outcome * world :=
  respond (with_connect
    (result ← select_businesses_of_owner owner;
     mret (BList (map (business_entry req) result), 200)) w).

(* ===================================================================== *)
(** ** Review handlers *)

(** [SELECT 1 FROM businesses WHERE business_id = :business_id], the
    parameter being a value of the request body. *)
Definition select_1_business (p_business_id : value) : M (list Z) :=
  _ ← tick;
  t ← get_work;
  mret (map (λ _, 1) (filter (λ r, sql_eq (business_id r) p_business_id)
                        (businesses t))).

(** [SELECT 1 FROM reviews WHERE business_id = :business_id AND user_id =
    :user_id]. *)
Definition select_1_review (p_business_id p_user_id : value) : M (list Z) :=
  _ ← tick;
  t ← get_work;
  mret (map (λ _, 1)
          (filter (λ r, sql_eq (review_business_id r) p_business_id ∧
                        sql_eq (user_id r) p_user_id) (reviews t))).

(** [INSERT INTO reviews (user_id, business_id, stars, review_text) VALUES
    (...)]. *)
Definition insert_review (p_user_id p_business_id p_stars p_review_text : value)
  : M unit :=
  _ ← tick;
  u ← lift (bind_INT p_user_id);
  b ← lift (bind_INT_UNSIGNED p_business_id);
  s ← lift (bind_SMALLINT p_stars);
  x ← lift (bind_VARCHAR_NULL 1000 p_review_text);
  t ← get_work;
  let id := reviews_auto t in
  if bool_decide (Exists (λ r, business_id r = b) (businesses t)) then
    if bool_decide (id ≤ 4294967295) then
      _ ← put_work {| businesses := businesses t;
                      reviews := reviews t ++
                        [{| review_id := id; user_id := u;
                            review_business_id := b; stars := s;
                            review_text := x |}];
                      businesses_auto := businesses_auto t;
                      reviews_auto := id + 1 |};
      set_last_insert_id id
    else raise IntegrityError
  else raise IntegrityError.

(** POST /reviews *)
Definition review_fields : list string := ["user_id"; "business_id"; "stars"].

Definition create_review (req : request) (content : dict) (w : world)
  : outcome * world :=
  if missing_field review_fields content then
    (Response (BObj MISSING_ATTRIBUTES) 400, w)
  else
    match with_connect
            (rows ← select_1_business (getitem content "business_id");
             let existing_business := scalar rows in
             match existing_business with
             | None => mret (inl (BObj BUSINESS_NOT_FOUND, 404))
             | Some _ =>
                 rows ← select_1_review (getitem content "business_id")
                                        (getitem content "user_id");
                 let existing_review := scalar rows in
                 match existing_review with
                 | Some _ => mret (inl (BObj ALREADY_REVIEWED, 409))
                 | None =>
                     let review_text :=
                       match content !! "review_text" with
                       | Some v => v
                       | None => VStr ""
                       end in
                     _ ← insert_review (getitem content "user_id")
                                       (getitem content "business_id")
                                       (getitem content "stars") review_text;
                     review_id ← select_last_insert_id;
                     _ ← commit;
                     mret (inr (review_id, review_text))
                 end
             end) w with
    | (inl e, w') =>
        (Response (BObj UNABLE_TO_CREATE) 500, logger_exception e w')
    | (inr (inl (b, status)), w') => (Response b status, w')
    | (inr (inr (review_id, review_text)), w') =>
        let business_url := host_url req +:+ BUSINESSES +:+ "/" +:+
                            str_value (getitem content "business_id") in
        let review_url := host_url req +:+ REVIEWS +:+ "/" +:+ str review_id in
        (Response (BObj
           {[ "id" := VInt review_id;
              "user_id" := getitem content "user_id";
              "business" := VStr business_url;
              "stars" := getitem content "stars";
              "review_text" := review_text;
              "self" := VStr review_url ]}) 201, w')
    end.

(** [SELECT ... FROM reviews WHERE review_id = :review_id]. *)
Definition select_review (id : Z) : M (list review_row) :=
  _ ← tick;
  t ← get_work;
  mret (filter (λ r, review_id r = id) (reviews t)).

(** A nullable text column as a Python value. *)
Definition text_value (x : option string) : value :=
  match x with
  | Some s => VStr s
  | None => VNone
  end.

(** [Row._asdict()] and [.mappings()] on a [reviews] row. *)
Definition review_asdict (r : review_row) : dict :=
  {[ "review_id" := VInt (review_id r);
     "user_id" := VInt (user_id r);
     "business_id" := VInt (review_business_id r);
     "stars" := VInt (stars r);
     "review_text" := text_value (review_text r) ]}.

(** GET /reviews/<int:id> *)
Definition get_review (req : request) (id : Z) (w : world)
  : outcome * world :=
  respond (with_connect
    (rows ← select_review id;
     row ← one_or_none rows;
     match row with
     | None => mret (BObj REVIEW_NOT_FOUND, 404)
     | Some row =>
         let review := review_asdict row in
         let review :=
           <["business" := VStr (url_root req +:+ BUSINESSES +:+ "/" +:+
                                 str_value (getitem review "business_id"))]>
             review in
         let review := delete "business_id" review in
         let review := <["id" := getitem review "review_id"]> review in
         let review := delete "review_id" review in
         let review :=
           <["self" := VStr (url_root req +:+ REVIEWS +:+ "/" +:+ str id)]>
             review in
         mret (BObj review, 200)
     end) w).

(** [UPDATE reviews SET stars = :stars, review_text = :review_text WHERE
    review_id = :review_id]. *)
Definition update_review (id : Z) (p_stars p_review_text : value) : M unit :=
  _ ← tick;
  s ← lift (bind_SMALLINT p_stars);
  x ← lift (bind_VARCHAR_NULL 1000 p_review_text);
  t ← get_work;
  put_work {| businesses := businesses t;
              reviews :=
                map (λ r, if bool_decide (review_id r = id)
                          then {| review_id := review_id r;
                                  user_id := user_id r;
                                  review_business_id := review_business_id r;
                                  stars := s; review_text := x |}
                          else r) (reviews t);
              businesses_auto := businesses_auto t;
              reviews_auto := reviews_auto t |}.

(** PUT /reviews/<int:id> *)
Definition edit_review (req : request) (id : Z) (content : dict) (w : world)
  : outcome * world :=
  if bool_decide (content !! "stars" = None) then
    (Response (BObj MISSING_ATTRIBUTES) 400, w)
  else
    respond (with_connect
      (rows ← select_review id;
       row ← one_or_none rows;
       match row with
       | None => mret (BObj REVIEW_NOT_FOUND, 404)
       | Some row =>
           let row := review_asdict row in
           let review_text :=
             match content !! "review_text" with
             | Some v => v
             | None => getitem row "review_text"
             end in
           _ ← update_review id (getitem content "stars") review_text;
           _ ← commit;
           let business_url := url_root req +:+ BUSINESSES +:+ "/" +:+
                               str_value (getitem row "business_id") in
           let review_url := url_root req +:+ REVIEWS +:+ "/" +:+ str id in
           mret (BObj
             {[ "id" := VInt id;
                "user_id" := getitem row "user_id";
                "business" := VStr business_url;
                "stars" := getitem content "stars";
                "review_text" := review_text;
                "self" := VStr review_url ]}, 200)
       end) w).

(** [DELETE FROM reviews WHERE review_id = :review_id]; gives [rowcount]. *)
Definition delete_review_rows (id : Z) : M nat :=
  _ ← tick;
  t ← get_work;
  let rowcount := length (filter (λ r, review_id r = id) (reviews t)) in
  _ ← put_work {| businesses := businesses t;
                  reviews := filter (λ r, review_id r ≠ id) (reviews t);
                  businesses_auto := businesses_auto t;
                  reviews_auto := reviews_auto t |};
  mret rowcount.

(** DELETE /reviews/<int:id> *)
Definition delete_review (id : Z) (w : world) : outcome * world :=
  respond (with_connect
    (rowcount ← delete_review_rows id;
     _ ← commit;
     if bool_decide (rowcount = 1%nat) then mret (BEmpty, 204)
     else mret (BObj REVIEW_NOT_FOUND, 404)) w).

(** [SELECT ... FROM reviews WHERE user_id = :user_id]. *)
Definition select_reviews_of_user (user : Z) : M (list review_row) :=
  _ ← tick;
  t ← get_work;
  mret (filter (λ r, user_id r = user) (reviews t)).

(** GET /users/<int:user_id>/reviews *)
Definition reviews_for_user (req : request) (user : Z) (w : world)
  : outcome * world :=
  respond (with_connect
    (result ← select_reviews_of_user user;
     mret (BList
       (map (λ row,
          {[ "id" := VInt (review_id row);
             "user_id" := VInt (user_id row);
             "business" := VStr (url_root req +:+ BUSINESSES +:+ "/" +:+
                                 str (review_business_id row));
             "stars" := VInt (stars row);
             "review_text" := text_value (review_text row);
             "self" := VStr (url_root req +:+ REVIEWS +:+ "/" +:+
                             str (review_id row)) ]}) result), 200)) w).

(* ===================================================================== *)
(** ** The routes *)

(** One inbound call, after routing. *)
Inductive call : Type :=
  | CreateBusiness (content : dict)
  | GetBusiness (id : Z)
  | GetAllBusinesses (offset limit : option Z)
  | EditBusiness (id : Z) (content : dict)
  | DeleteBusiness (id : Z)
  | BusinessesForOwner (owner : Z)
  | CreateReview (content : dict)
  | GetReview (id : Z)
  | EditReview (id : Z) (content : dict)
  | DeleteReview (id : Z)
  | ReviewsForUser (user : Z).

Definition handle (req : request) (c : call) : world → outcome * world :=
  match c with
  | CreateBusiness content => create_business req content
  | GetBusiness id => get_business req id
  | GetAllBusinesses offset limit => get_all_businesses req offset limit
  | EditBusiness id content => edit_business req id content
  | DeleteBusiness id => delete_lodging id
  | BusinessesForOwner owner => businesses_for_owner req owner
  | CreateReview content => create_review req content
  | GetReview id => get_review req id
  | EditReview id content => edit_review req id content
  | DeleteReview id => delete_review id
  | ReviewsForUser user => reviews_for_user req user
  end.

(** A run of calls, one after the other. *)
Fixpoint run (req : request) (cs : list call) (w : world) : world :=
  match cs with
  | [] => w
  | c :: cs => run req cs (snd (handle req c w))
  end.

(* ===================================================================== *)
(** ** Vocabulary of the properties *)

(** The store of a world that serves every call. *)
Definition healthy (w : world) : Prop := fail_after w = None.

(** The tables after [DELETE FROM businesses WHERE business_id = id]. *)
Definition tables_without_business (id : Z) (t : tables) : tables :=
  {| businesses := filter (λ r, business_id r ≠ id) (businesses t);
     reviews :=
       if bool_decide (length (filter (λ r, business_id r = id)
                                 (businesses t)) = 0%nat)
       then reviews t
       else filter (λ r, review_business_id r ≠ id) (reviews t);
     businesses_auto := businesses_auto t;
     reviews_auto := reviews_auto t |}.

(** The tables after [DELETE FROM reviews WHERE review_id = id]. *)
Definition tables_without_review (id : Z) (t : tables) : tables :=
  {| businesses := businesses t;
     reviews := filter (λ r, review_id r ≠ id) (reviews t);
     businesses_auto := businesses_auto t;
     reviews_auto := reviews_auto t |}.

(** The stored text of every review, by row. *)
Definition review_texts (t : tables) : list (Z * option string) :=
  map (λ r, (review_id r, review_text r)) (reviews t).

(** The tables after [UPDATE reviews SET stars = s, review_text = x WHERE
    review_id = id]. *)
Definition tables_with_review (id s : Z) (x : option string) (t : tables)
  : tables :=
  {| businesses := businesses t;
     reviews :=
       map (λ r, if bool_decide (review_id r = id)
                 then {| review_id := review_id r; user_id := user_id r;
                         review_business_id := review_business_id r;
                         stars := s; review_text := x |}
                 else r) (reviews t);
     businesses_auto := businesses_auto t;
     reviews_auto := reviews_auto t |}.

(** [review_text] as Edit-Review settles it. *)
Definition edited_text (content : dict) (row : review_row) : value :=
  match content !! "review_text" with
  | Some v => v
  | None => text_value (review_text row)
  end.

(** A request, and worlds to run the handlers in. *)
Definition example_request : request :=
  {| host_url := "http://localhost:8080/"; url_root := "http://localhost:8080/" |}.

Definition fresh_world : world :=
  {| fail_after := None; committed := empty_tables; log := [] |}.

Definition cafe : dict :=
  {[ "owner_id" := VInt 7; "name" := VStr "Cafe";
     "street_address" := VStr "1 Main St"; "city" := VStr "Bend";
     "state" := VStr "OR"; "zip_code" := VInt 97701 ]}.

Definition praise : dict :=
  {[ "user_id" := VInt 5; "business_id" := VInt 1; "stars" := VInt 4;
     "review_text" := VStr "Good coffee" ]}.

(** One business, and one review of it. *)
Definition stocked_world : world :=
  run example_request [CreateBusiness cafe; CreateReview praise] fresh_world.

(** Some business has the id the body names. *)
Definition business_exists (t : tables) (p_business_id : value) : Prop :=
  Exists (λ r, sql_eq (business_id r) p_business_id) (businesses t).

(** Some review is by the user and about the business the body names. *)
Definition review_exists (t : tables) (p_business_id p_user_id : value) : Prop :=
  Exists (λ r, sql_eq (review_business_id r) p_business_id ∧
               sql_eq (user_id r) p_user_id) (reviews t).

(** The reviews of business [b] by user [u]. *)
Definition reviews_of_pair (b u : Z) (t : tables) : list review_row :=
  filter (λ r, review_business_id r = b ∧ user_id r = u) (reviews t).

(** At most one review per (business, user) pair. *)
Definition unique_reviews (t : tables) : Prop :=
  ∀ b u, (length (reviews_of_pair b u t) ≤ 1)%nat.

(** [review_text] as Create-Review settles it. *)
Definition created_text (content : dict) : value :=
  match content !! "review_text" with
  | Some v => v
  | None => VStr ""
  end.

(** The row the [INSERT] of Create-Review adds, or what it raises. *)
Definition review_to_insert (content : dict) (t : tables) : exn + review_row :=
  match bind_INT (getitem content "user_id") with
  | inl e => inl e
  | inr u =>
  match bind_INT_UNSIGNED (getitem content "business_id") with
  | inl e => inl e
  | inr b =>
  match bind_SMALLINT (getitem content "stars") with
  | inl e => inl e
  | inr s =>
  match bind_VARCHAR_NULL 1000 (created_text content) with
  | inl e => inl e
  | inr x =>
      if bool_decide (Exists (λ r, business_id r = b) (businesses t)) then
        if bool_decide (reviews_auto t ≤ 4294967295) then
          inr {| review_id := reviews_auto t; user_id := u;
                 review_business_id := b; stars := s; review_text := x |}
        else inl IntegrityError
      else inl IntegrityError
  end end end end.

(** The tables with one more review. *)
Definition tables_plus_review (row : review_row) (t : tables) : tables :=
  {| businesses := businesses t;
     reviews := reviews t ++ [row];
     businesses_auto := businesses_auto t;
     reviews_auto := review_id row + 1 |}.

(** The body of a Create-Review response with status 201. *)
Definition created_review (req : request) (content : dict) (id : Z) : dict :=
  {[ "id" := VInt id;
     "user_id" := getitem content "user_id";
     "business" := VStr (host_url req +:+ "businesses/" +:+
                         str_value (getitem content "business_id"));
     "stars" := getitem content "stars";
     "review_text" := created_text content;
     "self" := VStr (host_url req +:+ "reviews/" +:+ str id) ]}.

(** The tables with one more business. *)
Definition tables_plus_business (row : business_row) (t : tables) : tables :=
  {| businesses := businesses t ++ [row];
     reviews := reviews t;
     businesses_auto := business_id row + 1;
     reviews_auto := reviews_auto t |}.

(** The tables after [UPDATE businesses SET ... WHERE business_id = id]. *)
Definition tables_with_business (id : Z) (new : business_row) (t : tables)
  : tables :=
  {| businesses :=
       map (λ r, if bool_decide (business_id r = id)
                 then {| business_id := business_id r;
                         owner_id := owner_id new; name := name new;
                         street_address := street_address new;
                         city := city new; state := state new;
                         zip_code := zip_code new |}
                 else r) (businesses t);
     reviews := reviews t;
     businesses_auto := businesses_auto t;
     reviews_auto := reviews_auto t |}.

(** A block that never commits. *)
Definition keeps_stored {A : Type} (m : M A) : Prop :=
  ∀ c, stored (snd (m c)) = stored c.

(** The row the [INSERT] of Create-Business adds, or what it raises. *)
Definition business_to_insert (content : dict) (t : tables)
  : exn + business_row :=
  match bind_INT (getitem content "owner_id") with
  | inl e => inl e
  | inr o =>
  match bind_VARCHAR 50 (getitem content "name") with
  | inl e => inl e
  | inr n =>
  match bind_VARCHAR 100 (getitem content "street_address") with
  | inl e => inl e
  | inr a =>
  match bind_VARCHAR 50 (getitem content "city") with
  | inl e => inl e
  | inr c =>
  match bind_VARCHAR 2 (getitem content "state") with
  | inl e => inl e
  | inr s =>
  match bind_INT (getitem content "zip_code") with
  | inl e => inl e
  | inr z =>
      if bool_decide (businesses_auto t ≤ 4294967295) then
        inr {| business_id := businesses_auto t; owner_id := o; name := n;
               street_address := a; city := c; state := s; zip_code := z |}
      else inl IntegrityError
  end end end end end end.

(** [AUTO_INCREMENT] hands out keys above every key in [businesses]. *)
Definition keys_ahead (t : tables) : Prop :=
  Forall (λ r, business_id r < businesses_auto t) (businesses t).

(** The body of a Create-Business response with status 201. *)
Definition created_business (req : request) (content : dict) (id : Z) : dict :=
  {[ "id" := VInt id;
     "owner_id" := getitem content "owner_id";
     "name" := getitem content "name";
     "street_address" := getitem content "street_address";
     "city" := getitem content "city";
     "state" := getitem content "state";
     "zip_code" := getitem content "zip_code";
     "self" := VStr (host_url req +:+ "businesses/" +:+ str id) ]}.

(** The body of a Get-Business response with status 200. *)
Definition fetched_business (req : request) (id : Z) (row : business_row)
  : dict :=
  <["self" := VStr (url_root req +:+ "businesses/" +:+ str id)]>
    (<["id" := VInt id]> (delete "business_id" (business_asdict row))).


(** A client that follows [next] links, for at most [fuel] pages: the
    pages it is served.  The link to follow asks for the [limit] and
    [offset] it was built from. *)
Fixpoint follow_next (fuel : nat) (req : request) (offset limit : Z)
    (w : world) : list body :=
  match fuel with
  | O => []
  | S fuel =>
      match get_all_businesses req (Some offset) (Some limit) w with
      | (Response (BPage entries next) _, w') =>
          BPage entries next ::
          match next with
          | None => []
          | Some _ => follow_next fuel req (offset + limit) limit w'
          end
      | _ => []
      end
  end.

(** A world whose store has stopped serving calls. *)
Definition store_down (t : tables) : world :=
  {| fail_after := Some O; committed := t; log := [] |}.

(** A body that is a JSON object with the single key [Error] and a
    string under it. *)
Definition error_body (b : body) : Prop :=
  ∃ msg, b = BObj {[ "Error" := VStr msg ]}.

(** How a call can end, and what it then left in the store: an exception
    that left the handler, a 400, 409 or 500 with an error body (each with
    the tables as they were), a 404 with an error body (with the tables as
    they were when [strict]), or a 200, 201 or 204. *)
Definition classified (strict : bool) (w : world) (r : outcome * world)
  : Prop :=
  (∃ e, fst r = Unhandled e ∧ committed (snd r) = committed w) ∨
  (∃ b s, fst r = Response b s ∧ error_body b ∧
          (s = 400 ∨ s = 409 ∨ s = 500) ∧
          committed (snd r) = committed w) ∨
  (∃ b, fst r = Response b 404 ∧ error_body b ∧
        (strict = true → committed (snd r) = committed w)) ∨
  (∃ b s, fst r = Response b s ∧ (s = 200 ∨ s = 201 ∨ s = 204)).

(** The two deleting calls. *)
Definition is_delete (c : call) : bool :=
  match c with
  | DeleteBusiness _ | DeleteReview _ => true
  | _ => false
  end.

(** [PRIMARY KEY] and [AUTO_INCREMENT] on both tables: no key twice, and
    every key below the counter of its table. *)
Definition primary_keys (t : tables) : Prop :=
  NoDup (map business_id (businesses t)) ∧
  Forall (λ r, business_id r < businesses_auto t) (businesses t) ∧
  NoDup (map review_id (reviews t)) ∧
  Forall (λ r, review_id r < reviews_auto t) (reviews t).

(** [FOREIGN KEY (business_id) REFERENCES businesses(business_id)]: every
    review is about a stored business. *)
Definition foreign_keys (t : tables) : Prop :=
  Forall (λ r, Exists (λ b, business_id b = review_business_id r)
                 (businesses t)) (reviews t).

(** The object built for a row in the listing of a user's reviews. *)
Definition review_entry (req : request) (row : review_row) : dict :=
  {[ "id" := VInt (review_id row);
     "user_id" := VInt (user_id row);
     "business" := VStr (url_root req +:+ BUSINESSES +:+ "/" +:+
                         str (review_business_id row));
     "stars" := VInt (stars row);
     "review_text" := text_value (review_text row);
     "self" := VStr (url_root req +:+ REVIEWS +:+ "/" +:+
                     str (review_id row)) ]}.
(** The values the [UPDATE] of Update-Business writes, or what it raises. *)
Definition business_to_update (id : Z) (content : dict) : exn + business_row :=
  match bind_INT (getitem content "owner_id") with
  | inl e => inl e
  | inr o =>
  match bind_VARCHAR 50 (getitem content "name") with
  | inl e => inl e
  | inr n =>
  match bind_VARCHAR 100 (getitem content "street_address") with
  | inl e => inl e
  | inr a =>
  match bind_VARCHAR 50 (getitem content "city") with
  | inl e => inl e
  | inr c =>
  match bind_VARCHAR 2 (getitem content "state") with
  | inl e => inl e
  | inr s =>
  match bind_INT (getitem content "zip_code") with
  | inl e => inl e
  | inr z =>
      inr {| business_id := id; owner_id := o; name := n;
             street_address := a; city := c; state := s; zip_code := z |}
  end end end end end end.
(** The entries of a page. *)
Definition page_entries (b : body) : list dict :=
  match b with
  | BPage entries _ => entries
  | _ => []
  end.

(* ===================================================================== *)
(** * Properties *)

(** Unfolds the connection monad in the goal. *)
Ltac unfold_M :=
  unfold respond, with_connect, commit, select_last_insert_id, one_or_none,
    scalar, raise, lift, get_work, get_last_insert_id, put_work,
    set_last_insert_id, install_work, tick, mbind, M_bind, mret, M_ret.


(** ** General facts *)


Lemma missing_field_true (fields : list string) (content : dict) :
  missing_field fields content = true ↔
  ∃ field, field ∈ fields ∧ content !! field = None.
Proof.
  unfold missing_field. rewrite existsb_exists. split.
  - intros (f & Hin & Hf). exists f. split.
    + by apply list_elem_of_In.
    + by apply bool_decide_eq_true in Hf.
  - intros (f & Hin & Hf). exists f. split.
    + by apply list_elem_of_In.
    + by apply bool_decide_eq_true.
Qed.

Lemma missing_field_false (fields : list string) (content : dict) :
  missing_field fields content = false ↔
  ∀ field, field ∈ fields → is_Some (content !! field).
Proof.
  rewrite <- not_true_iff_false, missing_field_true. split.
  - intros H f Hin. destruct (content !! f) eqn:E; [by eexists|].
    exfalso. apply H. by exists f.
  - intros H (f & Hin & Hf). destruct (H f Hin) as [v Hv]. congruence.
Qed.

Lemma filter_none_id {A : Type} (P : A → Prop) `{∀ x, Decision (P x)}
    (l : list A) :
  length (filter P l) = 0%nat → filter (λ x, ¬ P x) l = l.
Proof.
  induction l as [|a l IH]; [done|].
  rewrite !filter_cons. destruct (decide (P a)) as [Ha|Ha].
  - simpl. lia.
  - intros Hl. rewrite decide_True by done. f_equal. by apply IH.
Qed.

Lemma filter_split_length {A : Type} (P : A → Prop) `{∀ x, Decision (P x)}
    (l : list A) :
  length l = (length (filter (λ x, ¬ P x) l) + length (filter P l))%nat.
Proof.
  induction l as [|a l IH]; [done|].
  rewrite !filter_cons.
  destruct (decide (P a)), (decide (¬ P a)); simpl; try lia; tauto.
Qed.

(* ===================================================================== *)
(** ** Required attributes of a business *)

(** C8.  A Create-Business or Update-Business request whose body lacks
    one of [owner_id], [name], [street_address], [city], [state],
    [zip_code] is answered 400 with the missing-attributes body, whichever
    key is missing; the store is not touched. *)
Theorem business_missing_field_400 (req : request) (id : Z) (content : dict)
    (w : world) (field : string) :
  field ∈ business_fields →
  content !! field = None →
  create_business req content w = (Response (BObj MISSING_ATTRIBUTES) 400, w) ∧
  edit_business req id content w = (Response (BObj MISSING_ATTRIBUTES) 400, w) ∧
  MISSING_ATTRIBUTES =
    {[ "Error" :=
         VStr "The request body is missing at least one of the required attributes" ]}.
Proof.
  intros Hin Hf.
  assert (missing_field business_fields content = true) as Hm.
  { apply missing_field_true. by exists field. }
  unfold create_business, edit_business. rewrite Hm. done.
Qed.

Lemma business_missing_field_400_witness :
  let content : dict := {[ "owner_id" := VInt 7; "name" := VStr "Cafe";
                           "city" := VStr "Bend"; "state" := VStr "OR";
                           "zip_code" := VInt 97701 ]} in
  let w := {| fail_after := None; committed := empty_tables; log := [] |} in
  let req := {| host_url := "http://h/"; url_root := "http://h/" |} in
  create_business req content w = (Response (BObj MISSING_ATTRIBUTES) 400, w) ∧
  edit_business req 1 content w = (Response (BObj MISSING_ATTRIBUTES) 400, w) ∧
  MISSING_ATTRIBUTES =
    {[ "Error" :=
         VStr "The request body is missing at least one of the required attributes" ]}.
Proof.
  intros content w req.
  apply (business_missing_field_400 req 1 content w "street_address").
  - unfold business_fields. set_solver.
  - vm_compute. reflexivity.
Defined.

(* ===================================================================== *)
(** ** Deleting *)


Lemma delete_lodging_healthy (id : Z) (t : tables) (l : list exn) :
  delete_lodging id {| fail_after := None; committed := t; log := l |} =
  (if bool_decide (length (filter (λ r, business_id r = id) (businesses t))
                   = 1%nat)
   then Response BEmpty 204 else Response (BObj BUSINESS_NOT_FOUND) 404,
   {| fail_after := None; committed := tables_without_business id t;
      log := l |}).
Proof.
  unfold delete_lodging, delete_business_rows. unfold_M. simpl.
  by case_bool_decide.
Qed.

Lemma delete_review_healthy (id : Z) (t : tables) (l : list exn) :
  delete_review id {| fail_after := None; committed := t; log := l |} =
  (if bool_decide (length (filter (λ r, review_id r = id) (reviews t))
                   = 1%nat)
   then Response BEmpty 204 else Response (BObj REVIEW_NOT_FOUND) 404,
   {| fail_after := None; committed := tables_without_review id t;
      log := l |}).
Proof.
  unfold delete_review, delete_review_rows. unfold_M. simpl.
  by case_bool_decide.
Qed.

(** C7.  With a store that serves its calls, Delete-Business and
    Delete-Review answer by the row count of their [DELETE] alone: 204
    with an empty body when exactly one row went, 404 with the body of
    the entity otherwise.  The count is the number of rows the table
    lost, and for an id no row has it is zero: 404, and the tables stay
    as they were. *)
Theorem delete_by_rowcount (id : Z) (w : world) :
  healthy w →
  let nb := length (filter (λ r, business_id r = id) (businesses (committed w))) in
  let nr := length (filter (λ r, review_id r = id) (reviews (committed w))) in
  let wb := snd (delete_lodging id w) in
  let wr := snd (delete_review id w) in
  fst (delete_lodging id w) =
    (if bool_decide (nb = 1%nat) then Response BEmpty 204
     else Response (BObj BUSINESS_NOT_FOUND) 404) ∧
  length (businesses (committed w)) =
    (length (businesses (committed wb)) + nb)%nat ∧
  (nb = 0%nat → fst (delete_lodging id w) = Response (BObj BUSINESS_NOT_FOUND) 404
                ∧ wb = w) ∧
  fst (delete_review id w) =
    (if bool_decide (nr = 1%nat) then Response BEmpty 204
     else Response (BObj REVIEW_NOT_FOUND) 404) ∧
  length (reviews (committed w)) =
    (length (reviews (committed wr)) + nr)%nat ∧
  (nr = 0%nat → fst (delete_review id w) = Response (BObj REVIEW_NOT_FOUND) 404
                ∧ wr = w).
Proof.
  destruct w as [f t l]. unfold healthy. simpl. intros ->.
  rewrite delete_lodging_healthy, delete_review_healthy. simpl.
  split_and!; try done.
  - apply filter_split_length.
  - intros H0. rewrite H0. split; [done|]. f_equal.
    unfold tables_without_business. rewrite H0. simpl.
    rewrite (filter_none_id _ _ H0). by destruct t.
  - apply filter_split_length.
  - intros H0. rewrite H0. split; [done|]. f_equal.
    unfold tables_without_review.
    rewrite (filter_none_id _ _ H0). by destruct t.
Qed.

Lemma delete_by_rowcount_witness :
  healthy stocked_world ∧
  fst (delete_review 1 stocked_world) = Response BEmpty 204 ∧
  fst (delete_review 2 stocked_world) = Response (BObj REVIEW_NOT_FOUND) 404 ∧
  snd (delete_review 2 stocked_world) = stocked_world ∧
  fst (delete_lodging 1 stocked_world) = Response BEmpty 204 ∧
  fst (delete_lodging 2 stocked_world) = Response (BObj BUSINESS_NOT_FOUND) 404 ∧
  snd (delete_lodging 2 stocked_world) = stocked_world.
Proof.
  assert (healthy stocked_world) as Hh by reflexivity.
  destruct (delete_by_rowcount 1 stocked_world Hh) as (Hb1 & _ & _ & Hr1 & _).
  destruct (delete_by_rowcount 2 stocked_world Hh)
    as (_ & _ & Hb2 & _ & _ & Hr2).
  split; [exact Hh|].
  split; [exact Hr1|].
  destruct Hr2 as [Hr2 Hr2']; [reflexivity|].
  destruct Hb2 as [Hb2 Hb2']; [reflexivity|].
  split_and!; try done.
Defined.

(* ===================================================================== *)
(** ** Editing a review *)

Lemma bind_VARCHAR_NULL_text (n : nat) (x y : option string) :
  bind_VARCHAR_NULL n (text_value x) = inr y → y = x.
Proof.
  destruct x as [s|]; simpl; [|congruence].
  case_bool_decide; congruence.
Qed.

Lemma filter_singleton_eq {A : Type} (P : A → Prop) `{∀ x, Decision (P x)}
    (l : list A) (a b : A) :
  filter P l = [a] → b ∈ l → P b → b = a.
Proof.
  intros Hf Hb HP.
  assert (b ∈ filter P l) as Hin by (by apply list_elem_of_filter).
  rewrite Hf in Hin. by apply list_elem_of_singleton in Hin.
Qed.

(** What Edit-Review leaves in the store, whatever the store does: the
    tables as they were, or the one row found with its new values. *)
Lemma edit_review_committed (req : request) (id : Z) (content : dict)
    (w : world) :
  committed (snd (edit_review req id content w)) = committed w ∨
  ∃ row s x,
    filter (λ r, review_id r = id) (reviews (committed w)) = [row] ∧
    bind_SMALLINT (getitem content "stars") = inr s ∧
    bind_VARCHAR_NULL 1000 (edited_text content row) = inr x ∧
    committed (snd (edit_review req id content w)) =
      tables_with_review id s x (committed w).
Proof.
  destruct w as [f t l]. unfold edit_review.
  case_bool_decide; [by left|].
  unfold select_review, update_review, edited_text, getitem.
  destruct f as [[|[|[|[|n]]]]|]; unfold_M; simpl; try (by left).
  all: destruct (filter _ (reviews t)) as [|row [|row2 rest]] eqn:Hf;
    simpl; try (by left).
  all: destruct (bind_SMALLINT _) as [e|s] eqn:Hs; simpl; try (by left).
  all: destruct (bind_VARCHAR_NULL 1000 _) as [e|x] eqn:Hx; simpl;
    try (by left).
  all: right; exists row, s, x; split_and!; try done.
Qed.

Lemma review_texts_with_review (id s : Z) (x : option string) (row : review_row)
    (t : tables) :
  filter (λ r, review_id r = id) (reviews t) = [row] →
  x = review_text row →
  review_texts (tables_with_review id s x t) = review_texts t.
Proof.
  intros Hf ->. unfold review_texts, tables_with_review. simpl.
  rewrite map_map. apply map_ext_in. intros r Hr.
  case_bool_decide as Hid; [|done]. simpl. f_equal.
  symmetry. f_equal.
  apply (filter_singleton_eq _ _ _ _ Hf); [|done].
  by apply list_elem_of_In.
Qed.

(** C6.  An Edit-Review request with [stars] and without [review_text]
    leaves the stored [review_text] of every review as it was, whatever
    the store does; an Edit-Review request without [stars] is answered
    400, and nothing at all changes. *)
Theorem edit_review_text_preserved (req : request) (id : Z) (content : dict)
    (w : world) :
  (is_Some (content !! "stars") → content !! "review_text" = None →
   review_texts (committed (snd (edit_review req id content w))) =
   review_texts (committed w)) ∧
  (content !! "stars" = None →
   edit_review req id content w = (Response (BObj MISSING_ATTRIBUTES) 400, w)).
Proof.
  split.
  - intros _ Htext.
    destruct (edit_review_committed req id content w)
      as [->|(row & s & x & Hf & _ & Hx & ->)]; [done|].
    apply (review_texts_with_review _ _ _ row); [done|].
    unfold edited_text in Hx. rewrite Htext in Hx.
    by apply bind_VARCHAR_NULL_text in Hx.
  - intros Hstars. unfold edit_review. by rewrite bool_decide_eq_true_2.
Qed.

Lemma edit_review_text_preserved_witness :
  let content : dict := {[ "stars" := VInt 2 ]} in
  fst (edit_review example_request 1 content stocked_world) =
    Response (BObj {[ "id" := VInt 1; "user_id" := VInt 5;
                      "business" := VStr "http://localhost:8080/businesses/1";
                      "stars" := VInt 2; "review_text" := VStr "Good coffee";
                      "self" := VStr "http://localhost:8080/reviews/1" ]}) 200 ∧
  review_texts (committed stocked_world) = [(1, Some "Good coffee")] ∧
  review_texts (committed (snd (edit_review example_request 1 content
                                  stocked_world))) =
  review_texts (committed stocked_world) ∧
  edit_review example_request 1 ∅ stocked_world =
    (Response (BObj MISSING_ATTRIBUTES) 400, stocked_world).
Proof.
  intros content. split; [by vm_compute|]. split; [by vm_compute|].
  destruct (edit_review_text_preserved example_request 1 content stocked_world)
    as [H1 _].
  destruct (edit_review_text_preserved example_request 1 ∅ stocked_world)
    as [_ H2].
  split.
  - apply H1; [by eexists|done].
  - by apply H2.
Defined.

Lemma filter_map_stable {A : Type} (P : A → Prop) `{∀ x, Decision (P x)}
    (f : A → A) (l : list A) :
  (∀ a, P (f a) ↔ P a) → filter P (map f l) = map f (filter P l).
Proof.
  intros Hf. induction l as [|a l IH]; [done|].
  simpl. rewrite !filter_cons.
  destruct (decide (P (f a))) as [H1|H1], (decide (P a)) as [H2|H2]; simpl.
  - by rewrite IH.
  - exfalso. apply H2. by apply Hf.
  - exfalso. apply H1. by apply Hf.
  - done.
Qed.


Lemma bind_int_inr (lo hi : Z) (v : value) (z : Z) :
  bind_int lo hi v = inr z → v = VInt z ∧ lo ≤ z ≤ hi.
Proof.
  destruct v as [|z'|s]; simpl; try done.
  case_bool_decide; [|done]. by intros [= ->].
Qed.

Lemma bind_VARCHAR_inr (n : nat) (v : value) (s : string) :
  bind_VARCHAR n v = inr s → v = VStr s ∧ (String.length s ≤ n)%nat.
Proof.
  destruct v as [|z|s']; simpl; try done.
  case_bool_decide; [|done]. by intros [= ->].
Qed.

Lemma bind_VARCHAR_NULL_inr (n : nat) (v : value) (x : option string) :
  bind_VARCHAR_NULL n v = inr x → v = text_value x.
Proof.
  destruct v as [|z|s]; simpl; try done.
  - by intros [= <-].
  - case_bool_decide; [|done]. by intros [= <-].
Qed.



(* ===================================================================== *)
(** ** Creating a review *)

#[local] Instance business_exists_dec t v : Decision (business_exists t v).
Proof. unfold business_exists. apply _. Defined.

#[local] Instance review_exists_dec t b u : Decision (review_exists t b u).
Proof. unfold review_exists. apply _. Defined.

Lemma filter_nil_iff {A : Type} (P : A → Prop) `{∀ x, Decision (P x)}
    (l : list A) :
  filter P l = [] ↔ ¬ Exists P l.
Proof.
  rewrite Exists_exists. split.
  - intros Hf (x & Hin & HP).
    assert (x ∈ filter P l) as Hx by (by apply list_elem_of_filter).
    rewrite Hf in Hx. by apply not_elem_of_nil in Hx.
  - intros Hn. induction l as [|a l IH]; [done|].
    rewrite filter_cons. destruct (decide (P a)) as [Ha|Ha].
    + exfalso. apply Hn. exists a. split; [set_solver|done].
    + apply IH. intros (x & Hin & HP). apply Hn. exists x.
      split; [set_solver|done].
Qed.

(** Create-Review on a store that serves its calls, step by step. *)
Lemma create_review_healthy (req : request) (content : dict) (t : tables)
    (l : list exn) :
  let w := {| fail_after := None; committed := t; log := l |} in
  create_review req content w =
  if missing_field review_fields content then
    (Response (BObj MISSING_ATTRIBUTES) 400, w)
  else if bool_decide (business_exists t (getitem content "business_id")) then
    if bool_decide (review_exists t (getitem content "business_id")
                      (getitem content "user_id")) then
      (Response (BObj ALREADY_REVIEWED) 409, w)
    else
      match review_to_insert content t with
      | inl e => (Response (BObj UNABLE_TO_CREATE) 500, logger_exception e w)
      | inr row =>
          (Response (BObj (created_review req content (review_id row))) 201,
           {| fail_after := None; committed := tables_plus_review row t;
              log := l |})
      end
  else (Response (BObj BUSINESS_NOT_FOUND) 404, w).
Proof.
  intros w. unfold create_review.
  destruct (missing_field review_fields content); [done|].
  unfold select_1_business, select_1_review, insert_review, review_to_insert,
    created_text, business_exists, review_exists.
  unfold_M. simpl.
  destruct (filter _ (businesses t)) as [|rb rbs] eqn:Hb; simpl.
  { apply filter_nil_iff in Hb. by rewrite bool_decide_eq_false_2. }
  rewrite bool_decide_eq_true_2
    by (apply dec_stable; rewrite <- filter_nil_iff, Hb; done).
  destruct (filter _ (reviews t)) as [|rr rrs] eqn:Hr; simpl.
  2:{ rewrite bool_decide_eq_true_2; [done|].
      apply dec_stable. rewrite <- filter_nil_iff, Hr. done. }
  apply filter_nil_iff in Hr. rewrite (bool_decide_eq_false_2 _ Hr).
  destruct (bind_INT _) as [e|u]; simpl; [done|].
  destruct (bind_INT_UNSIGNED _) as [e|b]; simpl; [done|].
  destruct (bind_SMALLINT _) as [e|s]; simpl; [done|].
  destruct (bind_VARCHAR_NULL _ _) as [e|x]; simpl; [done|].
  case_bool_decide; simpl; [|done].
  case_bool_decide; simpl; done.
Qed.

Lemma review_to_insert_inr (content : dict) (t : tables) (row : review_row) :
  review_to_insert content t = inr row →
  getitem content "user_id" = VInt (user_id row) ∧
  getitem content "business_id" = VInt (review_business_id row) ∧
  getitem content "stars" = VInt (stars row) ∧
  created_text content = text_value (review_text row) ∧
  review_id row = reviews_auto t.
Proof.
  unfold review_to_insert.
  destruct (bind_INT _) as [e|u] eqn:Hu; [done|].
  destruct (bind_INT_UNSIGNED _) as [e|b] eqn:Hb; [done|].
  destruct (bind_SMALLINT _) as [e|s] eqn:Hs; [done|].
  destruct (bind_VARCHAR_NULL _ _) as [e|x] eqn:Hx; [done|].
  case_bool_decide; [|done]. case_bool_decide; [|done].
  intros [= <-]. simpl.
  apply bind_int_inr in Hu as [-> _]. apply bind_int_inr in Hb as [-> _].
  apply bind_int_inr in Hs as [-> _]. apply bind_VARCHAR_NULL_inr in Hx as ->.
  done.
Qed.



(* ===================================================================== *)
(** ** What each call may leave in the store *)

Lemma keeps_stored_bind {A B : Type} (m : M A) (k : A → M B) :
  keeps_stored m → (∀ a, keeps_stored (k a)) → keeps_stored (m ≫= k).
Proof.
  intros Hm Hk c. unfold mbind, M_bind.
  specialize (Hm c). destruct (m c) as [[e|a] c']; simpl in *; [done|].
  by rewrite Hk.
Qed.

Lemma keeps_stored_tick : keeps_stored tick.
Proof. intros c. unfold tick. by destruct (calls_left c) as [[|n]|]. Qed.

Lemma keeps_stored_get_work : keeps_stored get_work.
Proof. done. Qed.

Lemma keeps_stored_ret {A : Type} (a : A) : keeps_stored (mret a).
Proof. done. Qed.

Lemma keeps_stored_raise {A : Type} (e : exn) : keeps_stored (@raise A e).
Proof. done. Qed.

Lemma keeps_stored_one_or_none {A : Type} (rows : list A) :
  keeps_stored (one_or_none rows).
Proof. by destruct rows as [|r [|r' rows]]. Qed.

Lemma with_connect_keeps_stored {A : Type} (block : M A) (w : world) :
  keeps_stored block → committed (snd (with_connect block w)) = committed w.
Proof.
  intros Hk. unfold keeps_stored in Hk. unfold with_connect.
  destruct (fail_after w) as [[|n]|]; [done| |].
  - pose proof (Hk {| calls_left := Some n; stored := committed w;
                       work := committed w; last_insert_id := 0 |}) as H.
    destruct (block _) as [r c']. simpl in *. done.
  - pose proof (Hk {| calls_left := None; stored := committed w;
                       work := committed w; last_insert_id := 0 |}) as H.
    destruct (block _) as [r c']. simpl in *. done.
Qed.

Lemma respond_committed (r : (exn + body * Z) * world) :
  committed (snd (respond r)) = committed (snd r).
Proof. by destruct r as [[e|[b s]] w]. Qed.

Ltac keeps_stored_tac :=
  repeat first
    [ apply keeps_stored_bind; [|intros ?]
    | apply keeps_stored_tick | apply keeps_stored_get_work
    | apply keeps_stored_ret | apply keeps_stored_raise
    | apply keeps_stored_one_or_none
    | match goal with |- keeps_stored (match ?x with _ => _ end) =>
        destruct x end
    | match goal with |- keeps_stored (if ?x then _ else _) =>
        destruct x end ].

(** The five reading calls leave the store as it is. *)
Lemma reads_committed (req : request) (c : call) (w : world) :
  match c with
  | GetBusiness _ | GetAllBusinesses _ _ | BusinessesForOwner _
  | GetReview _ | ReviewsForUser _ => True
  | _ => False
  end →
  committed (snd (handle req c w)) = committed w.
Proof.
  destruct c; try done; intros _; simpl.
  - unfold get_business. rewrite respond_committed.
    apply with_connect_keeps_stored. unfold select_business. keeps_stored_tac.
  - unfold get_all_businesses. rewrite respond_committed.
    apply with_connect_keeps_stored. unfold select_businesses_page.
    keeps_stored_tac.
  - unfold businesses_for_owner. rewrite respond_committed.
    apply with_connect_keeps_stored. unfold select_businesses_of_owner.
    keeps_stored_tac.
  - unfold get_review. rewrite respond_committed.
    apply with_connect_keeps_stored. unfold select_review. keeps_stored_tac.
  - unfold reviews_for_user. rewrite respond_committed.
    apply with_connect_keeps_stored. unfold select_reviews_of_user.
    keeps_stored_tac.
Qed.

Lemma create_business_committed (req : request) (content : dict) (w : world) :
  committed (snd (create_business req content w)) = committed w ∨
  ∃ row, business_to_insert content (committed w) = inr row ∧
         committed (snd (create_business req content w)) =
           tables_plus_business row (committed w).
Proof.
  destruct w as [f t l]. unfold create_business.
  destruct (missing_field _ _); [by left|].
  unfold insert_business, business_to_insert.
  destruct f as [[|[|[|[|n]]]]|]; unfold_M; simpl; try (by left).
  all: destruct (bind_INT (getitem content "owner_id")) as [e|o];
    simpl; try (by left).
  all: destruct (bind_VARCHAR 50 (getitem content "name")) as [e|nm];
    simpl; try (by left).
  all: destruct (bind_VARCHAR 100 _) as [e|a]; simpl; try (by left).
  all: destruct (bind_VARCHAR 50 (getitem content "city")) as [e|c];
    simpl; try (by left).
  all: destruct (bind_VARCHAR 2 _) as [e|s]; simpl; try (by left).
  all: destruct (bind_INT (getitem content "zip_code")) as [e|z];
    simpl; try (by left).
  all: case_bool_decide; simpl; try (by left).
  all: right; eexists; split; done.
Qed.

Lemma edit_business_committed (req : request) (id : Z) (content : dict)
    (w : world) :
  committed (snd (edit_business req id content w)) = committed w ∨
  ∃ new, committed (snd (edit_business req id content w)) =
           tables_with_business id new (committed w).
Proof.
  destruct w as [f t l]. unfold edit_business.
  destruct (missing_field _ _); [by left|].
  unfold select_business, update_business.
  destruct f as [[|[|[|[|n]]]]|]; unfold_M; simpl; try (by left).
  all: destruct (filter _ (businesses t)) as [|row [|row2 rest]];
    simpl; try (by left).
  all: destruct (bind_INT (getitem content "owner_id")) as [e|o];
    simpl; try (by left).
  all: destruct (bind_VARCHAR 50 (getitem content "name")) as [e|nm];
    simpl; try (by left).
  all: destruct (bind_VARCHAR 100 _) as [e|a]; simpl; try (by left).
  all: destruct (bind_VARCHAR 50 (getitem content "city")) as [e|c];
    simpl; try (by left).
  all: destruct (bind_VARCHAR 2 _) as [e|s]; simpl; try (by left).
  all: destruct (bind_INT (getitem content "zip_code")) as [e|z];
    simpl; try (by left).
  all: right;
    by exists {| business_id := id; owner_id := o; name := nm;
                 street_address := a; city := c; state := s; zip_code := z |}.
Qed.

Lemma delete_lodging_committed (id : Z) (w : world) :
  committed (snd (delete_lodging id w)) = committed w ∨
  committed (snd (delete_lodging id w)) =
    tables_without_business id (committed w).
Proof.
  destruct w as [f t l]. unfold delete_lodging, delete_business_rows.
  destruct f as [[|[|[|n]]]|]; unfold_M; simpl; try (by left).
  all: case_bool_decide; simpl; by right.
Qed.

Lemma delete_review_committed (id : Z) (w : world) :
  committed (snd (delete_review id w)) = committed w ∨
  committed (snd (delete_review id w)) =
    tables_without_review id (committed w).
Proof.
  destruct w as [f t l]. unfold delete_review, delete_review_rows.
  destruct f as [[|[|[|n]]]|]; unfold_M; simpl; try (by left).
  all: case_bool_decide; simpl; by right.
Qed.

Lemma create_review_committed (req : request) (content : dict) (w : world) :
  committed (snd (create_review req content w)) = committed w ∨
  ∃ row, review_to_insert content (committed w) = inr row ∧
         ¬ review_exists (committed w) (getitem content "business_id")
             (getitem content "user_id") ∧
         committed (snd (create_review req content w)) =
           tables_plus_review row (committed w).
Proof.
  destruct w as [f t l]. unfold create_review.
  destruct (missing_field _ _); [by left|].
  unfold select_1_business, select_1_review, insert_review, review_to_insert,
    created_text, review_exists.
  destruct f as [[|[|[|[|[|[|n]]]]]]|]; unfold_M; simpl; try (by left).
  all: destruct (filter _ (businesses t)) as [|rb rbs]; simpl; try (by left).
  all: destruct (filter _ (reviews t)) as [|rr rrs] eqn:Hr; simpl;
    try (by left).
  all: apply filter_nil_iff in Hr.
  all: destruct (bind_INT _) as [e|u]; simpl; try (by left).
  all: destruct (bind_INT_UNSIGNED _) as [e|b]; simpl; try (by left).
  all: destruct (bind_SMALLINT _) as [e|s]; simpl; try (by left).
  all: destruct (bind_VARCHAR_NULL _ _) as [e|x]; simpl; try (by left).
  all: case_bool_decide; simpl; try (by left).
  all: case_bool_decide; simpl; try (by left).
  all: right; eexists; split_and!; done.
Qed.

(* ===================================================================== *)
(** ** One review per business and user *)

Lemma filter_filter_length {A : Type} (P Q : A → Prop)
    `{∀ x, Decision (P x)} `{∀ x, Decision (Q x)} (l : list A) :
  (length (filter P (filter Q l)) ≤ length (filter P l))%nat.
Proof.
  induction l as [|a l IH]; [done|].
  rewrite (filter_cons Q), (filter_cons P).
  destruct (decide (Q a)), (decide (P a)); rewrite ?filter_cons;
    try rewrite decide_True by done; try rewrite decide_False by done;
    simpl; lia.
Qed.

Lemma unique_reviews_without_business (id : Z) (t : tables) :
  unique_reviews t → unique_reviews (tables_without_business id t).
Proof.
  intros Hu b u. specialize (Hu b u).
  unfold reviews_of_pair, tables_without_business in *. simpl.
  case_bool_decide; [done|].
  etrans; [apply filter_filter_length|done].
Qed.

Lemma unique_reviews_without_review (id : Z) (t : tables) :
  unique_reviews t → unique_reviews (tables_without_review id t).
Proof.
  intros Hu b u. specialize (Hu b u).
  unfold reviews_of_pair, tables_without_review in *. simpl.
  etrans; [apply filter_filter_length|done].
Qed.

Lemma unique_reviews_with_review (id s : Z) (x : option string) (t : tables) :
  unique_reviews t → unique_reviews (tables_with_review id s x t).
Proof.
  intros Hu b u. specialize (Hu b u).
  unfold reviews_of_pair, tables_with_review in *. simpl.
  rewrite filter_map_stable; [by rewrite length_map|].
  intros a. by case_bool_decide.
Qed.

(** The reviews of a pair after one more review was stored. *)
Lemma reviews_of_pair_plus (row : review_row) (t : tables) (b u : Z) :
  reviews_of_pair b u (tables_plus_review row t) =
  reviews_of_pair b u t ++
  (if bool_decide (review_business_id row = b ∧ user_id row = u)
   then [row] else []).
Proof.
  unfold reviews_of_pair, tables_plus_review. simpl.
  rewrite filter_app. f_equal. rewrite filter_cons, filter_nil.
  case_bool_decide; [by rewrite decide_True|by rewrite decide_False].
Qed.

Lemma review_exists_pair (t : tables) (b u : Z) :
  review_exists t (VInt b) (VInt u) ↔ reviews_of_pair b u t ≠ [].
Proof.
  unfold reviews_of_pair. rewrite filter_nil_iff. unfold review_exists.
  split.
  - intros H Hn. apply Hn. eapply Exists_impl; [exact H|].
    intros r [H1 H2]. unfold sql_eq in *. split; congruence.
  - intros H. apply dec_stable. intros Hn. apply H. intros He. apply Hn.
    eapply Exists_impl; [exact He|].
    intros r [H1 H2]. unfold sql_eq. split; congruence.
Qed.

Lemma unique_reviews_plus_review (content : dict) (row : review_row)
    (t : tables) :
  review_to_insert content t = inr row →
  ¬ review_exists t (getitem content "business_id")
      (getitem content "user_id") →
  unique_reviews t → unique_reviews (tables_plus_review row t).
Proof.
  intros Hi Hn Hu b u. rewrite reviews_of_pair_plus, length_app.
  case_bool_decide as Hp; simpl; [|specialize (Hu b u); lia].
  apply review_to_insert_inr in Hi as (Hu' & Hb' & _).
  rewrite Hu', Hb' in Hn. destruct Hp as [<- <-].
  rewrite review_exists_pair in Hn.
  destruct (reviews_of_pair _ _ t); [simpl; lia|].
  exfalso. by apply Hn.
Qed.

(** Every call keeps the invariant, whatever the store does. *)
Lemma handle_unique_reviews (req : request) (c : call) (w : world) :
  unique_reviews (committed w) →
  unique_reviews (committed (snd (handle req c w))).
Proof.
  intros Hu.
  destruct c; try (rewrite reads_committed; done); simpl.
  - destruct (create_business_committed req content w)
      as [->|(row & _ & ->)]; done.
  - destruct (edit_business_committed req id content w)
      as [->|(new & ->)]; done.
  - destruct (delete_lodging_committed id w) as [->| ->]; [done|].
    by apply unique_reviews_without_business.
  - destruct (create_review_committed req content w)
      as [->|(row & Hi & Hn & ->)]; [done|].
    by eapply unique_reviews_plus_review.
  - destruct (edit_review_committed req id content w)
      as [->|(row & s & x & _ & _ & _ & ->)]; [done|].
    by apply unique_reviews_with_review.
  - destruct (delete_review_committed id w) as [->| ->]; [done|].
    by apply unique_reviews_without_review.
Qed.

Lemma run_unique_reviews (req : request) (cs : list call) (w : world) :
  unique_reviews (committed w) → unique_reviews (committed (run req cs w)).
Proof.
  revert w. induction cs as [|c cs IH]; intros w Hu; [done|].
  simpl. apply IH. by apply handle_unique_reviews.
Qed.




(* ===================================================================== *)
(** ** Creating a business and reading it back *)

(** Create-Business on a store that serves its calls. *)
Lemma create_business_healthy (req : request) (content : dict) (t : tables)
    (l : list exn) :
  let w := {| fail_after := None; committed := t; log := l |} in
  create_business req content w =
  if missing_field business_fields content then
    (Response (BObj MISSING_ATTRIBUTES) 400, w)
  else
    match business_to_insert content t with
    | inl e => (Response (BObj UNABLE_TO_CREATE) 500, logger_exception e w)
    | inr row =>
        (Response (BObj (created_business req content (business_id row))) 201,
         {| fail_after := None; committed := tables_plus_business row t;
            log := l |})
    end.
Proof.
  intros w. unfold create_business.
  destruct (missing_field business_fields content); [done|].
  unfold insert_business, business_to_insert. unfold_M. simpl.
  destruct (bind_INT (getitem content "owner_id")) as [e|o]; simpl; [done|].
  destruct (bind_VARCHAR 50 (getitem content "name")) as [e|nm];
    simpl; [done|].
  destruct (bind_VARCHAR 100 _) as [e|a]; simpl; [done|].
  destruct (bind_VARCHAR 50 (getitem content "city")) as [e|c];
    simpl; [done|].
  destruct (bind_VARCHAR 2 _) as [e|s]; simpl; [done|].
  destruct (bind_INT (getitem content "zip_code")) as [e|z]; simpl; [done|].
  case_bool_decide; simpl; done.
Qed.

(** Get-Business on a store that serves its calls. *)
Lemma get_business_healthy (req : request) (id : Z) (t : tables)
    (l : list exn) :
  let w := {| fail_after := None; committed := t; log := l |} in
  get_business req id w =
  (match filter (λ r, business_id r = id) (businesses t) with
   | [] => Response (BObj BUSINESS_NOT_FOUND) 404
   | [row] => Response (BObj (fetched_business req id row)) 200
   | _ => Unhandled MultipleResultsFound
   end, w).
Proof.
  intros w. unfold get_business, select_business. unfold_M. simpl.
  by destruct (filter _ (businesses t)) as [|row [|row2 rest]].
Qed.

Lemma business_to_insert_inr (content : dict) (t : tables) (row : business_row) :
  business_to_insert content t = inr row →
  getitem content "owner_id" = VInt (owner_id row) ∧
  getitem content "name" = VStr (name row) ∧
  getitem content "street_address" = VStr (street_address row) ∧
  getitem content "city" = VStr (city row) ∧
  getitem content "state" = VStr (state row) ∧
  getitem content "zip_code" = VInt (zip_code row) ∧
  business_id row = businesses_auto t.
Proof.
  unfold business_to_insert.
  destruct (bind_INT (getitem content "owner_id")) as [e|o] eqn:Ho; [done|].
  destruct (bind_VARCHAR 50 (getitem content "name")) as [e|nm] eqn:Hn;
    [done|].
  destruct (bind_VARCHAR 100 _) as [e|a] eqn:Ha; [done|].
  destruct (bind_VARCHAR 50 (getitem content "city")) as [e|c] eqn:Hc;
    [done|].
  destruct (bind_VARCHAR 2 _) as [e|s] eqn:Hs; [done|].
  destruct (bind_INT (getitem content "zip_code")) as [e|z] eqn:Hz; [done|].
  case_bool_decide; [|done]. intros [= <-]. simpl.
  apply bind_int_inr in Ho as [-> _]. apply bind_int_inr in Hz as [-> _].
  apply bind_VARCHAR_inr in Hn as [-> _]. apply bind_VARCHAR_inr in Ha as [-> _].
  apply bind_VARCHAR_inr in Hc as [-> _]. apply bind_VARCHAR_inr in Hs as [-> _].
  done.
Qed.





(** Every call keeps the keys of [businesses] below the counter. *)
Lemma handle_keys_ahead (req : request) (c : call) (w : world) :
  keys_ahead (committed w) → keys_ahead (committed (snd (handle req c w))).
Proof.
  intros Hk.
  destruct c; try (rewrite reads_committed; done); simpl.
  - destruct (create_business_committed req content w)
      as [->|(row & Hi & ->)]; [done|].
    apply business_to_insert_inr in Hi as (_ & _ & _ & _ & _ & _ & Hid).
    unfold keys_ahead, tables_plus_business in *. simpl.
    apply Forall_app. split.
    + eapply Forall_impl; [exact Hk|]. simpl. intros r Hr. lia.
    + apply Forall_singleton. lia.
  - destruct (edit_business_committed req id content w)
      as [->|(new & ->)]; [done|].
    unfold keys_ahead, tables_with_business in *. simpl.
    rewrite Forall_forall in Hk. apply Forall_forall. intros r Hr.
    apply list_elem_of_In, in_map_iff in Hr as (r0 & <- & Hr0).
    apply list_elem_of_In, Hk in Hr0. by case_bool_decide.
  - destruct (delete_lodging_committed id w) as [->| ->]; [done|].
    unfold keys_ahead, tables_without_business in *. simpl.
    rewrite Forall_forall in Hk. apply Forall_forall. intros r Hr.
    apply list_elem_of_filter in Hr as [_ Hr]. by apply Hk.
  - destruct (create_review_committed req content w)
      as [->|(row & _ & _ & ->)]; done.
  - destruct (edit_review_committed req id content w)
      as [->|(row & s & x & _ & _ & _ & ->)]; done.
  - destruct (delete_review_committed id w) as [->| ->]; done.
Qed.

(* ===================================================================== *)
(** ** Listing businesses by page *)

(** Get-All-Businesses on a store that serves its calls. *)
Lemma get_all_businesses_healthy (req : request) (offset limit : option Z)
    (t : tables) (l : list exn) :
  let w := {| fail_after := None; committed := t; log := l |} in
  let o := default 0 offset in
  let n := default 3 limit in
  let rows := take (Z.to_nat n)
                (drop (Z.to_nat o) (merge_sort by_business_id (businesses t))) in
  get_all_businesses req offset limit w =
  (if bool_decide (0 ≤ n ≤ LIMIT_MAX ∧ 0 ≤ o ≤ LIMIT_MAX) then
     Response
       (BPage (map (business_entry req) rows)
          (if bool_decide (Z.of_nat (length rows) < n) then None
           else Some (page_url req n (o + n)))) 200
   else Unhandled ProgrammingError, w).
Proof.
  intros w o n rows. unfold get_all_businesses, select_businesses_page.
  unfold_M. simpl. fold o n.
  case_bool_decide; simpl; [|done].
  fold rows. by rewrite length_map.
Qed.

#[local] Instance by_business_id_total : Total by_business_id.
Proof. intros a b. unfold by_business_id. lia. Qed.

(** C4, as the code has it.  On a store that serves its calls,
    Get-All-Businesses with [offset] (default 0) and [limit] (default 3)
    both between 0 and 2^64 - 1 is answered 200 with the page: the
    entries are the businesses in ascending order of id, [offset] of them
    skipped and at most [limit] kept; [next] is null exactly when fewer
    than [limit] rows came back, and is otherwise the link to the same
    [limit] and to [offset + limit].  With a negative (or too large)
    [offset] or [limit] the store rejects the statement and the exception
    leaves the handler: there is no 200. *)
Theorem get_all_businesses_page (req : request) (offset limit : option Z)
    (w : world) :
  healthy w →
  let o := default 0 offset in
  let n := default 3 limit in
  (0 ≤ n ≤ LIMIT_MAX ∧ 0 ≤ o ≤ LIMIT_MAX →
   ∃ sorted next,
     sorted ≡ₚ businesses (committed w) ∧
     Sorted by_business_id sorted ∧
     let rows := take (Z.to_nat n) (drop (Z.to_nat o) sorted) in
     get_all_businesses req offset limit w =
       (Response (BPage (map (business_entry req) rows) next) 200, w) ∧
     (next = None ↔ Z.of_nat (length rows) < n) ∧
     (¬ Z.of_nat (length rows) < n →
      next = Some (url_root req +:+ "businesses?limit=" +:+ str n +:+
                   "&offset=" +:+ str (o + n)))) ∧
  (¬ (0 ≤ n ≤ LIMIT_MAX ∧ 0 ≤ o ≤ LIMIT_MAX) →
   get_all_businesses req offset limit w = (Unhandled ProgrammingError, w)).
Proof.
  destruct w as [f t l]. unfold healthy. simpl. intros ->.
  rewrite get_all_businesses_healthy. split.
  - intros Hr. rewrite bool_decide_eq_true_2 by done.
    eexists (merge_sort by_business_id (businesses t)), _.
    split; [apply merge_sort_Permutation|].
    split; [apply Sorted_merge_sort, _|].
    split; [reflexivity|].
    split; case_bool_decide; done.
  - intros Hr. by rewrite bool_decide_eq_false_2.
Qed.

Lemma get_all_businesses_page_witness :
  let w := run example_request
             [CreateBusiness cafe; CreateBusiness cafe; CreateBusiness cafe;
              CreateBusiness cafe] fresh_world in
  healthy w ∧
  ∃ sorted next,
    sorted ≡ₚ businesses (committed w) ∧
    Sorted by_business_id sorted ∧
    get_all_businesses example_request (Some 3) (Some 3) w =
      (Response (BPage (map (business_entry example_request)
                          (take 3 (drop 3 sorted))) next) 200, w) ∧
    (next = None ↔ Z.of_nat (length (take 3 (drop 3 sorted))) < 3).
Proof.
  intros w. assert (healthy w) as Hh by reflexivity.
  split; [exact Hh|].
  destruct (get_all_businesses_page example_request (Some 3) (Some 3) w Hh)
    as [H _].
  destruct H as (sorted & next & Hp & Hs & Hget & Hnone & _).
  { unfold LIMIT_MAX. simpl. lia. }
  exists sorted, next.
  split; [exact Hp|]. split; [exact Hs|]. split; [exact Hget|exact Hnone].
Defined.

(** C4, as stated, fails: a negative [limit] is an integer query
    parameter, and the call is not answered 200. *)
Lemma get_all_businesses_negative_limit :
  healthy stocked_world ∧
  get_all_businesses example_request None (Some (-1)) stocked_world =
    (Unhandled ProgrammingError, stocked_world) ∧
  ¬ ∃ b, fst (get_all_businesses example_request None (Some (-1))
                stocked_world) = Response b 200.
Proof.
  split; [reflexivity|]. split; [by vm_compute|].
  intros [b Hb]. vm_compute in Hb. discriminate Hb.
Qed.

(** On four businesses: a full first page with a link to the second, and
    a short second page without a link. *)
Example get_all_businesses_two_pages :
  let w := run example_request
             [CreateBusiness cafe; CreateBusiness cafe; CreateBusiness cafe;
              CreateBusiness cafe] fresh_world in
  (∃ e1 e2 e3,
     get_all_businesses example_request None None w =
       (Response (BPage [e1; e2; e3]
          (Some "http://localhost:8080/businesses?limit=3&offset=3")) 200, w) ∧
     e1 !! "id" = Some (VInt 1) ∧ e2 !! "id" = Some (VInt 2) ∧
     e3 !! "id" = Some (VInt 3)) ∧
  (∃ e4,
     get_all_businesses example_request (Some 3) (Some 3) w =
       (Response (BPage [e4] None) 200, w) ∧
     e4 !! "id" = Some (VInt 4)).
Proof.
  intros w. split.
  - eexists _, _, _. split_and!; by vm_compute.
  - eexists _. split_and!; by vm_compute.
Qed.

(** C10.  On a store that serves its calls, Get-All-Businesses with
    [limit = 0] (and an [offset] the store takes) is answered with no
    entries and a [next] link that is not null and asks for the [offset]
    and the [limit] of the request itself.  A client that follows [next]
    is served that same page again and again, for as long as it goes on. *)
Theorem get_all_businesses_limit_0 (req : request) (offset : Z) (w : world) :
  healthy w →
  0 ≤ offset ≤ LIMIT_MAX →
  get_all_businesses req (Some offset) (Some 0) w =
    (Response
       (BPage [] (Some (url_root req +:+ "businesses?limit=0&offset=" +:+
                        str offset))) 200, w) ∧
  page_url req 0 (offset + 0) =
    url_root req +:+ "businesses?limit=0&offset=" +:+ str offset ∧
  ∀ fuel, follow_next fuel req offset 0 w =
          replicate fuel (BPage [] (Some (page_url req 0 offset))).
Proof.
  intros Hh Ho. destruct w as [f t l]. unfold healthy in Hh. simpl in Hh.
  subst f.
  assert (get_all_businesses req (Some offset) (Some 0)
            {| fail_after := None; committed := t; log := l |} =
          (Response (BPage [] (Some (page_url req 0 offset))) 200,
           {| fail_after := None; committed := t; log := l |})) as Hget.
  { rewrite get_all_businesses_healthy. simpl.
    rewrite bool_decide_eq_true_2 by (unfold LIMIT_MAX in *; lia).
    rewrite Z.add_0_r. done. }
  split; [exact Hget|]. split; [by rewrite Z.add_0_r|].
  intros fuel. induction fuel as [|fuel IH]; [done|].
  simpl. rewrite Hget. rewrite Z.add_0_r, IH. done.
Qed.

Lemma get_all_businesses_limit_0_witness :
  healthy stocked_world ∧
  get_all_businesses example_request (Some 5) (Some 0) stocked_world =
    (Response
       (BPage [] (Some "http://localhost:8080/businesses?limit=0&offset=5"))
       200, stocked_world) ∧
  follow_next 3 example_request 5 0 stocked_world =
    replicate 3
      (BPage [] (Some "http://localhost:8080/businesses?limit=0&offset=5")).
Proof.
  assert (healthy stocked_world) as Hh by reflexivity.
  destruct (get_all_businesses_limit_0 example_request 5 stocked_world Hh)
    as (Hget & _ & Hfollow).
  { unfold LIMIT_MAX. lia. }
  split; [exact Hh|]. split; [exact Hget|]. exact (Hfollow 3%nat).
Defined.

(* ===================================================================== *)
(** ** Store failures during a write *)

Ltac caught :=
  eexists _, _; split; [done|]; right; right; split_and!; try done;
  by eexists.

(** The two creating calls catch what the store raises: the answer is
    always a response, and a 500 carries the fixed body, leaves the
    tables as they were and logs the exception. *)
Lemma create_business_catches (req : request) (content : dict) (w : world) :
  ∃ b s,
    fst (create_business req content w) = Response b s ∧
    (s = 400 ∨ s = 201 ∨
     s = 500 ∧ b = BObj UNABLE_TO_CREATE ∧
     committed (snd (create_business req content w)) = committed w ∧
     ∃ e, log (snd (create_business req content w)) = e :: log w).
Proof.
  destruct w as [f t l]. unfold create_business.
  destruct (missing_field _ _); [eexists _, _; split; [done|by left]|].
  unfold insert_business.
  destruct f as [[|[|[|[|n]]]]|]; unfold_M; simpl.
  all: try caught.
  all: destruct (bind_INT (getitem content "owner_id")) as [e|o]; simpl.
  all: try caught.
  all: destruct (bind_VARCHAR 50 (getitem content "name")) as [e|nm]; simpl.
  all: try caught.
  all: destruct (bind_VARCHAR 100 _) as [e|a]; simpl.
  all: try caught.
  all: destruct (bind_VARCHAR 50 (getitem content "city")) as [e|c]; simpl.
  all: try caught.
  all: destruct (bind_VARCHAR 2 _) as [e|s]; simpl.
  all: try caught.
  all: destruct (bind_INT (getitem content "zip_code")) as [e|z]; simpl.
  all: try caught.
  all: case_bool_decide; simpl.
  all: try caught.
  all: eexists _, _; split; [done|]; right; by left.
Qed.

Lemma create_review_catches (req : request) (content : dict) (w : world) :
  ∃ b s,
    fst (create_review req content w) = Response b s ∧
    (s = 400 ∨ s = 404 ∨ s = 409 ∨ s = 201 ∨
     s = 500 ∧ b = BObj UNABLE_TO_CREATE ∧
     committed (snd (create_review req content w)) = committed w ∧
     ∃ e, log (snd (create_review req content w)) = e :: log w).
Proof.
  destruct w as [f t l]. unfold create_review.
  destruct (missing_field _ _); [eexists _, _; split; [done|by left]|].
  unfold select_1_business, select_1_review, insert_review.
  destruct f as [[|[|[|[|[|[|n]]]]]]|]; unfold_M; simpl.
  all: try (eexists _, _; split; [done|]; do 4 right;
            split_and!; try done; by eexists).
  all: destruct (filter _ (businesses t)) as [|rb rbs]; simpl.
  all: try (eexists _, _; split; [done|]; right; by left).
  all: try (eexists _, _; split; [done|]; do 4 right;
            split_and!; try done; by eexists).
  all: destruct (filter _ (reviews t)) as [|rr rrs]; simpl.
  all: try (eexists _, _; split; [done|]; right; right; by left).
  all: try (eexists _, _; split; [done|]; do 4 right;
            split_and!; try done; by eexists).
  all: destruct (bind_INT _) as [e|u]; simpl.
  all: try (eexists _, _; split; [done|]; do 4 right;
            split_and!; try done; by eexists).
  all: destruct (bind_INT_UNSIGNED _) as [e|b]; simpl.
  all: try (eexists _, _; split; [done|]; do 4 right;
            split_and!; try done; by eexists).
  all: destruct (bind_SMALLINT _) as [e|s]; simpl.
  all: try (eexists _, _; split; [done|]; do 4 right;
            split_and!; try done; by eexists).
  all: destruct (bind_VARCHAR_NULL _ _) as [e|x]; simpl.
  all: try (eexists _, _; split; [done|]; do 4 right;
            split_and!; try done; by eexists).
  all: case_bool_decide; simpl.
  all: try (eexists _, _; split; [done|]; do 4 right;
            split_and!; try done; by eexists).
  all: case_bool_decide; simpl.
  all: try (eexists _, _; split; [done|]; do 4 right;
            split_and!; try done; by eexists).
  all: eexists _, _; split; [done|]; right; right; right; by left.
Qed.

(** C3, where the code departs from it.  With the store down, the two
    creating calls answer 500 with the fixed body and log the exception,
    as the claim says of every write.  Update-Business, Delete-Business,
    Edit-Review and Delete-Review have no handler for it: the exception
    leaves them unlogged, and no JSON error body is produced. *)
Theorem store_failure_unhandled_in_update_and_delete :
  let w := store_down (committed stocked_world) in
  create_business example_request cafe w =
    (Response (BObj UNABLE_TO_CREATE) 500,
     logger_exception OperationalError w) ∧
  create_review example_request praise w =
    (Response (BObj UNABLE_TO_CREATE) 500,
     logger_exception OperationalError w) ∧
  edit_business example_request 1 cafe w = (Unhandled OperationalError, w) ∧
  delete_lodging 1 w = (Unhandled OperationalError, w) ∧
  edit_review example_request 1 praise w = (Unhandled OperationalError, w) ∧
  delete_review 1 w = (Unhandled OperationalError, w).
Proof. intros w. split_and!; by vm_compute. Qed.

(* ===================================================================== *)
(** ** How calls end *)

Ltac error_end :=
  right; left; eexists _, _;
  split; [reflexivity|]; split; [by eexists|]; split; [auto|done].

Ltac end_of_call :=
  lazymatch goal with
  | |- (∃ e, Unhandled _ = Unhandled e ∧ _) ∨ _ =>
      left; eexists; split; [reflexivity|done]
  | |- (∃ e, Response _ 400 = _ ∧ _) ∨ _ => error_end
  | |- (∃ e, Response _ 409 = _ ∧ _) ∨ _ => error_end
  | |- (∃ e, Response _ 500 = _ ∧ _) ∨ _ => error_end
  | |- (∃ e, Response _ 404 = _ ∧ _) ∨ _ =>
      right; right; left; eexists; split; [reflexivity|];
      split; [by eexists|first [by intros [=]|by intros _]]
  | |- (∃ e, Response _ _ = _ ∧ _) ∨ _ =>
      right; right; right; eexists _, _; split; [reflexivity|auto]
  end.

Ltac next_case :=
  first
    [ case_bool_decide
    | match goal with
      | |- context [match ?x with _ => _ end] =>
          lazymatch x with
          | context [match _ with _ => _ end] => fail
          | _ => destruct x
          end
      end ];
  simpl.

Ltac classify :=
  unfold classified; simpl; repeat first [end_of_call | next_case].

Ltac classify_in_all_worlds f :=
  destruct f as [[|[|[|[|[|[|?]]]]]]|]; unfold_M; simpl; classify.

Lemma create_business_classified (req : request) (content : dict) (w : world) :
  classified true w (create_business req content w).
Proof.
  destruct w as [f t l]. unfold create_business.
  destruct (missing_field _ _); [classify|].
  unfold insert_business. classify_in_all_worlds f.
Qed.

Lemma get_business_classified (req : request) (id : Z) (w : world) :
  classified true w (get_business req id w).
Proof.
  destruct w as [f t l]. unfold get_business, select_business.
  classify_in_all_worlds f.
Qed.

Lemma get_all_businesses_classified (req : request) (offset limit : option Z)
    (w : world) :
  classified true w (get_all_businesses req offset limit w).
Proof.
  destruct w as [f t l]. unfold get_all_businesses, select_businesses_page.
  classify_in_all_worlds f.
Qed.

Lemma edit_business_classified (req : request) (id : Z) (content : dict)
    (w : world) :
  classified true w (edit_business req id content w).
Proof.
  destruct w as [f t l]. unfold edit_business.
  destruct (missing_field _ _); [classify|].
  unfold select_business, update_business. classify_in_all_worlds f.
Qed.

Lemma delete_lodging_classified (id : Z) (w : world) :
  classified false w (delete_lodging id w).
Proof.
  destruct w as [f t l]. unfold delete_lodging, delete_business_rows.
  classify_in_all_worlds f.
Qed.

Lemma businesses_for_owner_classified (req : request) (owner : Z) (w : world) :
  classified true w (businesses_for_owner req owner w).
Proof.
  destruct w as [f t l].
  unfold businesses_for_owner, select_businesses_of_owner.
  classify_in_all_worlds f.
Qed.

Lemma create_review_classified (req : request) (content : dict) (w : world) :
  classified true w (create_review req content w).
Proof.
  destruct w as [f t l]. unfold create_review.
  destruct (missing_field _ _); [classify|].
  unfold select_1_business, select_1_review, insert_review.
  classify_in_all_worlds f.
Qed.

Lemma get_review_classified (req : request) (id : Z) (w : world) :
  classified true w (get_review req id w).
Proof.
  destruct w as [f t l]. unfold get_review, select_review.
  classify_in_all_worlds f.
Qed.

Lemma edit_review_classified (req : request) (id : Z) (content : dict)
    (w : world) :
  classified true w (edit_review req id content w).
Proof.
  destruct w as [f t l]. unfold edit_review.
  case_bool_decide; [classify|].
  unfold select_review, update_review. classify_in_all_worlds f.
Qed.

Lemma delete_review_classified (id : Z) (w : world) :
  classified false w (delete_review id w).
Proof.
  destruct w as [f t l]. unfold delete_review, delete_review_rows.
  classify_in_all_worlds f.
Qed.

Lemma reviews_for_user_classified (req : request) (user : Z) (w : world) :
  classified true w (reviews_for_user req user w).
Proof.
  destruct w as [f t l]. unfold reviews_for_user, select_reviews_of_user.
  classify_in_all_worlds f.
Qed.

Lemma classified_weaken (strict : bool) (w : world) (r : outcome * world) :
  classified true w r → classified strict w r.
Proof.
  unfold classified. intros [H|[H|[(b & H1 & H2 & H3)|H]]]; auto.
  right; right; left. exists b. auto.
Qed.

Lemma handle_classified (req : request) (c : call) (w : world) :
  classified (negb (is_delete c)) w (handle req c w).
Proof.
  destruct c; simpl.
  - apply create_business_classified.
  - apply get_business_classified.
  - apply get_all_businesses_classified.
  - apply edit_business_classified.
  - apply delete_lodging_classified.
  - apply businesses_for_owner_classified.
  - apply create_review_classified.
  - apply get_review_classified.
  - apply edit_review_classified.
  - apply delete_review_classified.
  - apply reviews_for_user_classified.
Qed.

(** X1.  Whatever the call and whatever the store does, a response a
    handler returns has status 200, 201 or 204, or else status 400, 404,
    409 or 500 with a body that is a JSON object with the single key
    [Error] and a string under it. *)
Theorem responses_and_error_bodies (req : request) (c : call) (w : world)
    (b : body) (s : Z) :
  fst (handle req c w) = Response b s →
  (s = 200 ∨ s = 201 ∨ s = 204) ∨
  ((s = 400 ∨ s = 404 ∨ s = 409 ∨ s = 500) ∧ error_body b).
Proof.
  intros H.
  destruct (handle_classified req c w)
    as [(e & He & _)|[(b' & s' & Hr & Hb & Hs & _)|
        [(b' & Hr & Hb & _)|(b' & s' & Hr & Hs)]]];
    rewrite H in *.
  - done.
  - injection Hr as <- <-. right. split; [|done].
    destruct Hs as [->|[->| ->]]; auto.
  - injection Hr as <- <-. right. split; [auto|done].
  - injection Hr as <- <-. by left.
Qed.

Lemma responses_and_error_bodies_witness :
  ∃ b, fst (handle example_request (GetReview 7) stocked_world) =
         Response b 404 ∧ error_body b.
Proof.
  destruct (handle example_request (GetReview 7) stocked_world)
    as [o w'] eqn:E.
  assert (o = Response (BObj REVIEW_NOT_FOUND) 404) as ->.
  { change o with (fst (o, w')). rewrite <- E. by vm_compute. }
  exists (BObj REVIEW_NOT_FOUND). split; [reflexivity|].
  destruct (responses_and_error_bodies example_request (GetReview 7)
              stocked_world (BObj REVIEW_NOT_FOUND) 404) as [H|[_ H]].
  - by rewrite E.
  - destruct H as [H|[H|H]]; discriminate H.
  - exact H.
Defined.

(** X2.  A call that fails changes nothing.  When the exception of the
    store leaves the handler, or the response is a 400, a 409 or a 500,
    the committed tables are the ones before the call: what an
    interrupted transaction wrote is rolled back.  The same holds for a
    404 of every call that is not a delete. *)
Theorem failed_call_changes_nothing (req : request) (c : call) (w : world) :
  (∃ e, fst (handle req c w) = Unhandled e) ∨
  (∃ b s, fst (handle req c w) = Response b s ∧
          (s = 400 ∨ s = 409 ∨ s = 500 ∨ s = 404 ∧ is_delete c = false)) →
  committed (snd (handle req c w)) = committed w.
Proof.
  intros H.
  destruct (handle_classified req c w)
    as [(e & He & Hc)|[(b' & s' & Hr & Hb & Hs & Hc)|
        [(b' & Hr & Hb & Hc)|(b' & s' & Hr & Hs)]]]; try done.
  - destruct H as [(e & He)|(b & s & Hbs & Hs)]; [congruence|].
    rewrite Hr in Hbs. injection Hbs as <- <-.
    destruct Hs as [Hs|[Hs|[Hs|[_ Hs]]]]; try done.
    apply Hc. by rewrite Hs.
  - destruct H as [(e & He)|(b & s & Hbs & Hs')]; [congruence|].
    rewrite Hr in Hbs. injection Hbs as <- <-.
    destruct Hs as [->|[->| ->]], Hs' as [?|[?|[?|[? _]]]]; done.
Qed.

Lemma failed_call_changes_nothing_witness :
  let w := {| fail_after := Some 3%nat; committed := committed stocked_world;
              log := [] |} in
  fst (handle example_request (EditReview 1 praise) w) =
    Unhandled OperationalError ∧
  committed (snd (handle example_request (EditReview 1 praise) w)) =
    committed w.
Proof.
  intros w.
  assert (fst (handle example_request (EditReview 1 praise) w) =
          Unhandled OperationalError) as H by (by vm_compute).
  split; [exact H|].
  apply failed_call_changes_nothing. left. by eexists.
Defined.

(* ===================================================================== *)
(** ** The constraints of the schema *)

Lemma NoDup_map_snoc {A : Type} (f : A → Z) (l : list A) (x : A) (bound : Z) :
  NoDup (map f l) → Forall (λ a, f a < bound) l → bound ≤ f x →
  NoDup (map f (l ++ [x])).
Proof.
  intros Hn Hf Hx. rewrite map_app. simpl. apply NoDup_app. split; [done|].
  split; [|apply NoDup_singleton].
  intros k Hk ->%list_elem_of_singleton.
  apply list_elem_of_In, in_map_iff in Hk as (a & Ha & Hin).
  rewrite Forall_forall in Hf. apply list_elem_of_In, Hf in Hin. lia.
Qed.

Lemma NoDup_map_filter {A : Type} (f : A → Z) (P : A → Prop)
    `{∀ x, Decision (P x)} (l : list A) :
  NoDup (map f l) → NoDup (map f (filter P l)).
Proof.
  induction l as [|a l IH]; [done|]. simpl. intros Hn.
  apply NoDup_cons in Hn as [Ha Hn]. rewrite filter_cons.
  destruct (decide (P a)); [|by apply IH]. simpl.
  apply NoDup_cons. split; [|by apply IH].
  intros Hin. apply Ha.
  apply list_elem_of_In, in_map_iff in Hin as (x & Hx & Hin).
  apply list_elem_of_In, in_map_iff. exists x. split; [done|].
  apply list_elem_of_In. apply list_elem_of_In in Hin.
  by apply list_elem_of_filter in Hin as [_ ?].
Qed.

Lemma Forall_filter_keep {A : Type} (Q P : A → Prop) `{∀ x, Decision (P x)}
    (l : list A) :
  Forall Q l → Forall Q (filter P l).
Proof.
  rewrite !Forall_forall. intros HQ x Hx.
  apply list_elem_of_filter in Hx as [_ Hx]. by apply HQ.
Qed.

Lemma map_map_same {A : Type} (f : A → Z) (g : A → A) (l : list A) :
  (∀ a, f (g a) = f a) → map f (map g l) = map f l.
Proof. intros Hfg. rewrite map_map. apply map_ext. done. Qed.

Lemma Forall_map_same {A : Type} (Q : A → Prop) (g : A → A) (l : list A) :
  (∀ a, Q a → Q (g a)) → Forall Q l → Forall Q (map g l).
Proof.
  intros Hg. induction 1 as [|a l Ha Hl IH]; simpl; constructor; auto.
Qed.

Lemma primary_keys_plus_business (content : dict) (row : business_row)
    (t : tables) :
  business_to_insert content t = inr row →
  primary_keys t → primary_keys (tables_plus_business row t).
Proof.
  intros Hi (Hb & Hba & Hr & Hra).
  apply business_to_insert_inr in Hi as (_ & _ & _ & _ & _ & _ & Hid).
  unfold primary_keys, tables_plus_business. simpl. split_and!; try done.
  - eapply NoDup_map_snoc; [done|done|lia].
  - apply Forall_app. split.
    + eapply Forall_impl; [done|]. simpl. intros. lia.
    + apply Forall_singleton. lia.
Qed.

Lemma primary_keys_with_business (id : Z) (new : business_row) (t : tables) :
  primary_keys t → primary_keys (tables_with_business id new t).
Proof.
  intros (Hb & Hba & Hr & Hra).
  unfold primary_keys, tables_with_business. simpl. split_and!; try done.
  - rewrite map_map_same; [done|]. intros a. by case_bool_decide.
  - apply Forall_map_same; [|done]. intros a Ha. by case_bool_decide.
Qed.

Lemma primary_keys_without_business (id : Z) (t : tables) :
  primary_keys t → primary_keys (tables_without_business id t).
Proof.
  intros (Hb & Hba & Hr & Hra).
  unfold primary_keys, tables_without_business. simpl. split_and!.
  - by apply NoDup_map_filter.
  - by apply Forall_filter_keep.
  - case_bool_decide; [done|]. by apply NoDup_map_filter.
  - case_bool_decide; [done|]. by apply Forall_filter_keep.
Qed.

Lemma primary_keys_plus_review (content : dict) (row : review_row)
    (t : tables) :
  review_to_insert content t = inr row →
  primary_keys t → primary_keys (tables_plus_review row t).
Proof.
  intros Hi (Hb & Hba & Hr & Hra).
  apply review_to_insert_inr in Hi as (_ & _ & _ & _ & Hid).
  unfold primary_keys, tables_plus_review. simpl. split_and!; try done.
  - eapply NoDup_map_snoc; [done|done|lia].
  - apply Forall_app. split.
    + eapply Forall_impl; [done|]. simpl. intros. lia.
    + apply Forall_singleton. lia.
Qed.

Lemma primary_keys_with_review (id s : Z) (x : option string) (t : tables) :
  primary_keys t → primary_keys (tables_with_review id s x t).
Proof.
  intros (Hb & Hba & Hr & Hra).
  unfold primary_keys, tables_with_review. simpl. split_and!; try done.
  - rewrite map_map_same; [done|]. intros a. by case_bool_decide.
  - apply Forall_map_same; [|done]. intros a Ha. by case_bool_decide.
Qed.

Lemma primary_keys_without_review (id : Z) (t : tables) :
  primary_keys t → primary_keys (tables_without_review id t).
Proof.
  intros (Hb & Hba & Hr & Hra).
  unfold primary_keys, tables_without_review. simpl. split_and!; try done.
  - by apply NoDup_map_filter.
  - by apply Forall_filter_keep.
Qed.

Lemma handle_primary_keys (req : request) (c : call) (w : world) :
  primary_keys (committed w) → primary_keys (committed (snd (handle req c w))).
Proof.
  intros Hk.
  destruct c; try (rewrite reads_committed; done); simpl.
  - destruct (create_business_committed req content w)
      as [->|(row & Hi & ->)]; [done|].
    by eapply primary_keys_plus_business.
  - destruct (edit_business_committed req id content w)
      as [->|(new & ->)]; [done|].
    by apply primary_keys_with_business.
  - destruct (delete_lodging_committed id w) as [->| ->]; [done|].
    by apply primary_keys_without_business.
  - destruct (create_review_committed req content w)
      as [->|(row & Hi & _ & ->)]; [done|].
    by eapply primary_keys_plus_review.
  - destruct (edit_review_committed req id content w)
      as [->|(row & s & x & _ & _ & _ & ->)]; [done|].
    by apply primary_keys_with_review.
  - destruct (delete_review_committed id w) as [->| ->]; [done|].
    by apply primary_keys_without_review.
Qed.

Lemma run_primary_keys (req : request) (cs : list call) (w : world) :
  primary_keys (committed w) → primary_keys (committed (run req cs w)).
Proof.
  revert w. induction cs as [|c cs IH]; intros w Hk; [done|].
  simpl. apply IH. by apply handle_primary_keys.
Qed.

(** X3.  The primary keys hold in every reachable store.  Every call,
    whatever the store does, keeps both tables free of repeated keys and
    every key below the [AUTO_INCREMENT] counter of its table; so this
    holds after any run of calls from the empty tables. *)
Theorem primary_keys_kept (req : request) (cs : list call) (w : world) :
  primary_keys (committed w) → primary_keys (committed (run req cs w)).
Proof. exact (run_primary_keys req cs w). Qed.

Lemma primary_keys_kept_witness :
  primary_keys (committed fresh_world) ∧
  primary_keys (committed stocked_world) ∧
  primary_keys
    (committed (run example_request
                  [DeleteBusiness 1; CreateBusiness cafe] stocked_world)).
Proof.
  assert (primary_keys (committed fresh_world)) as H0.
  { unfold primary_keys. simpl. split_and!; constructor. }
  split; [exact H0|]. split.
  - exact (primary_keys_kept example_request
             [CreateBusiness cafe; CreateReview praise] fresh_world H0).
  - exact (primary_keys_kept example_request
             [CreateBusiness cafe; CreateReview praise;
              DeleteBusiness 1; CreateBusiness cafe] fresh_world H0).
Defined.

Lemma review_to_insert_business (content : dict) (t : tables)
    (row : review_row) :
  review_to_insert content t = inr row →
  Exists (λ b, business_id b = review_business_id row) (businesses t).
Proof.
  unfold review_to_insert.
  destruct (bind_INT _) as [e|u]; [done|].
  destruct (bind_INT_UNSIGNED _) as [e|b]; [done|].
  destruct (bind_SMALLINT _) as [e|s]; [done|].
  destruct (bind_VARCHAR_NULL _ _) as [e|x]; [done|].
  case_bool_decide as He; [|done]. case_bool_decide; [|done].
  by intros [= <-].
Qed.

Lemma foreign_keys_without_business (id : Z) (t : tables) :
  foreign_keys t → foreign_keys (tables_without_business id t).
Proof.
  unfold foreign_keys, tables_without_business. simpl. intros Hf.
  case_bool_decide as H0.
  - by rewrite (filter_none_id _ _ H0).
  - rewrite Forall_forall in Hf. apply Forall_forall. intros r Hr.
    apply list_elem_of_filter in Hr as [Hid Hr].
    specialize (Hf r Hr). rewrite Exists_exists in Hf.
    destruct Hf as (b & Hb & Hbr). apply Exists_exists. exists b.
    split; [|done]. apply list_elem_of_filter. split; [congruence|done].
Qed.

Lemma handle_foreign_keys (req : request) (c : call) (w : world) :
  foreign_keys (committed w) → foreign_keys (committed (snd (handle req c w))).
Proof.
  intros Hk.
  destruct c; try (rewrite reads_committed; done); simpl.
  - destruct (create_business_committed req content w)
      as [->|(row & Hi & ->)]; [done|].
    unfold foreign_keys, tables_plus_business in *. simpl.
    eapply Forall_impl; [exact Hk|]. simpl. intros r Hr.
    apply Exists_app. by left.
  - destruct (edit_business_committed req id content w)
      as [->|(new & ->)]; [done|].
    unfold foreign_keys, tables_with_business in *. simpl.
    eapply Forall_impl; [exact Hk|]. simpl. intros r Hr.
    rewrite Exists_exists in Hr. destruct Hr as (b & Hb & Hbr).
    apply Exists_exists. eexists. split.
    + apply list_elem_of_In, in_map. apply list_elem_of_In. exact Hb.
    + by case_bool_decide.
  - destruct (delete_lodging_committed id w) as [->| ->]; [done|].
    by apply foreign_keys_without_business.
  - destruct (create_review_committed req content w)
      as [->|(row & Hi & _ & ->)]; [done|].
    unfold foreign_keys, tables_plus_review in *. simpl.
    apply Forall_app. split; [done|]. apply Forall_singleton.
    by eapply review_to_insert_business.
  - destruct (edit_review_committed req id content w)
      as [->|(row & s & x & _ & _ & _ & ->)]; [done|].
    unfold foreign_keys, tables_with_review in *. simpl.
    apply Forall_map_same; [|done]. intros a Ha. by case_bool_decide.
  - destruct (delete_review_committed id w) as [->| ->]; [done|].
    unfold foreign_keys, tables_without_review in *. simpl.
    by apply Forall_filter_keep.
Qed.

Lemma run_foreign_keys (req : request) (cs : list call) (w : world) :
  foreign_keys (committed w) → foreign_keys (committed (run req cs w)).
Proof.
  revert w. induction cs as [|c cs IH]; intros w Hk; [done|].
  simpl. apply IH. by apply handle_foreign_keys.
Qed.

(** X4.  No review is left without its business.  Every call, whatever
    the store does, keeps every stored review about a stored business:
    Create-Review stores a review only of a business that exists, and
    Delete-Business takes the reviews of the business with it.  So this
    holds after any run of calls from the empty tables. *)
Theorem foreign_keys_kept (req : request) (cs : list call) (w : world) :
  foreign_keys (committed w) → foreign_keys (committed (run req cs w)).
Proof. exact (run_foreign_keys req cs w). Qed.

Lemma foreign_keys_kept_witness :
  foreign_keys (committed fresh_world) ∧
  foreign_keys (committed stocked_world) ∧
  reviews (committed (run example_request [DeleteBusiness 1] stocked_world))
    = [] ∧
  foreign_keys
    (committed (run example_request [DeleteBusiness 1] stocked_world)).
Proof.
  assert (foreign_keys (committed fresh_world)) as H0 by constructor.
  split; [exact H0|]. split; [|split; [reflexivity|]].
  - exact (foreign_keys_kept example_request
             [CreateBusiness cafe; CreateReview praise] fresh_world H0).
  - exact (foreign_keys_kept example_request
             [CreateBusiness cafe; CreateReview praise; DeleteBusiness 1]
             fresh_world H0).
Defined.

(* ===================================================================== *)
(** ** Reading one row *)

Lemma filter_key_singleton {A : Type} (f : A → Z) (l : list A) (x : A) :
  NoDup (map f l) → x ∈ l → filter (λ a, f a = f x) l = [x].
Proof.
  induction l as [|a l IH]; simpl; intros Hn Hx.
  - by apply not_elem_of_nil in Hx.
  - apply NoDup_cons in Hn as [Ha Hn]. rewrite filter_cons.
    apply elem_of_cons in Hx as [->|Hx].
    + rewrite decide_True by done. f_equal.
      apply filter_nil_iff. rewrite Exists_exists. intros (b & Hb & Hfb).
      apply Ha. rewrite <- Hfb.
      apply list_elem_of_In, in_map. by apply list_elem_of_In.
    + rewrite decide_False; [by apply IH|].
      intros Hfa. apply Ha. rewrite Hfa.
      apply list_elem_of_In, in_map. by apply list_elem_of_In.
Qed.

Lemma filter_key_absent {A : Type} (f : A → Z) (l : list A) (k : Z) :
  (∀ a, a ∈ l → f a ≠ k) → filter (λ a, f a = k) l = [].
Proof.
  intros Ha. apply filter_nil_iff. rewrite Exists_exists.
  intros (a & Hin & Hk). by apply (Ha a).
Qed.

Lemma fetched_business_entry (req : request) (row : business_row) :
  fetched_business req (business_id row) row = business_entry req row.
Proof. reflexivity. Qed.

(** Get-Review on a store that serves its calls. *)
Lemma get_review_healthy (req : request) (id : Z) (t : tables)
    (l : list exn) :
  let w := {| fail_after := None; committed := t; log := l |} in
  get_review req id w =
  (match filter (λ r, review_id r = id) (reviews t) with
   | [] => Response (BObj REVIEW_NOT_FOUND) 404
   | [row] =>
       Response (BObj (<["self" := VStr (url_root req +:+ "reviews/" +:+
                                          str id)]>
                         (delete "self" (review_entry req row)))) 200
   | _ => Unhandled MultipleResultsFound
   end, w).
Proof.
  intros w. unfold get_review, select_review. unfold_M. simpl.
  by destruct (filter _ (reviews t)) as [|row [|row2 rest]].
Qed.

Lemma get_row (req : request) (id : Z) (w : world) :
  healthy w →
  primary_keys (committed w) →
  (∀ row, row ∈ businesses (committed w) → business_id row = id →
     get_business req id w = (Response (BObj (business_entry req row)) 200, w)) ∧
  ((∀ row, row ∈ businesses (committed w) → business_id row ≠ id) →
     get_business req id w = (Response (BObj BUSINESS_NOT_FOUND) 404, w)) ∧
  (∀ row, row ∈ reviews (committed w) → review_id row = id →
     get_review req id w = (Response (BObj (review_entry req row)) 200, w)) ∧
  ((∀ row, row ∈ reviews (committed w) → review_id row ≠ id) →
     get_review req id w = (Response (BObj REVIEW_NOT_FOUND) 404, w)).
Proof.
  destruct w as [f t l]. unfold healthy. simpl. intros -> (Hb & _ & Hr & _).
  split_and!.
  - intros row Hin <-. rewrite get_business_healthy.
    by rewrite (filter_key_singleton business_id _ _ Hb Hin).
  - intros Hn. rewrite get_business_healthy.
    by rewrite (filter_key_absent business_id _ _ Hn).
  - intros row Hin <-. rewrite get_review_healthy.
    by rewrite (filter_key_singleton review_id _ _ Hr Hin).
  - intros Hn. rewrite get_review_healthy.
    by rewrite (filter_key_absent review_id _ _ Hn).
Qed.

(** X5.  Get-Business and Get-Review on a store that serves its calls
    and keeps its primary keys: for the id of a stored row the answer is
    200 with the very object the listings build for that row (the id
    under [id], the links [self] and [business]); for an id no row has,
    it is 404 with the not-found body of the entity.  In both cases the
    world stays as it was, and no exception leaves the handler. *)
Theorem get_one_row (req : request) (id : Z) (w : world) :
  healthy w →
  primary_keys (committed w) →
  (∀ row, row ∈ businesses (committed w) → business_id row = id →
     get_business req id w = (Response (BObj (business_entry req row)) 200, w)) ∧
  ((∀ row, row ∈ businesses (committed w) → business_id row ≠ id) →
     get_business req id w = (Response (BObj BUSINESS_NOT_FOUND) 404, w)) ∧
  (∀ row, row ∈ reviews (committed w) → review_id row = id →
     get_review req id w = (Response (BObj (review_entry req row)) 200, w)) ∧
  ((∀ row, row ∈ reviews (committed w) → review_id row ≠ id) →
     get_review req id w = (Response (BObj REVIEW_NOT_FOUND) 404, w)).
Proof. exact (get_row req id w). Qed.

Lemma get_one_row_witness :
  healthy stocked_world ∧ primary_keys (committed stocked_world) ∧
  (∃ row, get_review example_request 1 stocked_world =
            (Response (BObj (review_entry example_request row)) 200,
             stocked_world) ∧
          review_entry example_request row !! "review_text" =
            Some (VStr "Good coffee")) ∧
  get_business example_request 2 stocked_world =
    (Response (BObj BUSINESS_NOT_FOUND) 404, stocked_world).
Proof.
  assert (healthy stocked_world) as Hh by reflexivity.
  assert (primary_keys (committed stocked_world)) as Hk.
  { apply (run_primary_keys example_request
             [CreateBusiness cafe; CreateReview praise] fresh_world).
    unfold primary_keys. simpl. split_and!; constructor. }
  destruct (get_one_row example_request 1 stocked_world Hh Hk)
    as (_ & _ & Hrev & _).
  destruct (get_one_row example_request 2 stocked_world Hh Hk)
    as (_ & Hnone & _ & _).
  split; [exact Hh|]. split; [exact Hk|]. split.
  - exists {| review_id := 1; user_id := 5; review_business_id := 1;
              stars := 4; review_text := Some "Good coffee" |}.
    split; [|reflexivity]. apply Hrev; [|reflexivity].
    apply list_elem_of_singleton. reflexivity.
  - apply Hnone. intros row Hrow.
    change (businesses (committed stocked_world)) with
      [{| business_id := 1; owner_id := 7; name := "Cafe";
          street_address := "1 Main St"; city := "Bend"; state := "OR";
          zip_code := 97701 |}] in Hrow.
    apply list_elem_of_singleton in Hrow as ->. simpl. lia.
Defined.

(* ===================================================================== *)
(** ** Deleting a business and its reviews *)

Lemma key_inj {A : Type} (f : A → Z) (l : list A) (x y : A) :
  NoDup (map f l) → x ∈ l → y ∈ l → f y = f x → y = x.
Proof.
  intros Hn Hx Hy Hf.
  assert (y ∈ filter (λ a, f a = f x) l) as Hin
    by (by apply list_elem_of_filter).
  rewrite (filter_key_singleton f l x Hn Hx) in Hin.
  by apply list_elem_of_singleton in Hin.
Qed.

(** X6.  Delete-Business of a stored business, on a store that serves its
    calls and keeps its primary keys, is answered 204.  Right after,
    Get-Business on the id is answered 404, and so is Get-Review on every
    review that was about the business; every other business and every
    other review is read back as before. *)
Theorem delete_business_cascades (req : request) (id : Z) (w : world) :
  healthy w →
  primary_keys (committed w) →
  (∃ row, row ∈ businesses (committed w) ∧ business_id row = id) →
  let w' := snd (delete_lodging id w) in
  fst (delete_lodging id w) = Response BEmpty 204 ∧
  get_business req id w' = (Response (BObj BUSINESS_NOT_FOUND) 404, w') ∧
  (∀ r, r ∈ reviews (committed w) → review_business_id r = id →
     get_review req (review_id r) w' =
       (Response (BObj REVIEW_NOT_FOUND) 404, w')) ∧
  (∀ r, r ∈ reviews (committed w) → review_business_id r ≠ id →
     get_review req (review_id r) w' =
       (Response (BObj (review_entry req r)) 200, w')) ∧
  (∀ b, b ∈ businesses (committed w) → business_id b ≠ id →
     get_business req (business_id b) w' =
       (Response (BObj (business_entry req b)) 200, w')).
Proof.
  destruct w as [f t l]. unfold healthy. simpl.
  intros -> Hk (row & Hrow & Hid).
  rewrite delete_lodging_healthy. simpl.
  pose proof Hk as (Hnb & _ & Hnr & _).
  assert (filter (λ r, business_id r = id) (businesses t) = [row]) as Hf.
  { rewrite <- Hid. by apply filter_key_singleton. }
  set (w' := {| fail_after := None; committed := tables_without_business id t;
                log := l |}).
  assert (healthy w') as Hh' by reflexivity.
  assert (primary_keys (committed w')) as Hk'
    by (by apply primary_keys_without_business).
  assert (reviews (committed w') =
          filter (λ r, review_business_id r ≠ id) (reviews t)) as Hrev.
  { simpl. by rewrite Hf. }
  split_and!.
  - by rewrite Hf.
  - apply (get_row req id w' Hh' Hk'). simpl. intros b Hb.
    by apply list_elem_of_filter in Hb as [? _].
  - intros r Hr Hrid. apply (get_row req (review_id r) w' Hh' Hk').
    rewrite Hrev. intros r' Hr' Heq.
    apply list_elem_of_filter in Hr' as [Hne Hr'].
    apply Hne. by rewrite (key_inj review_id _ _ _ Hnr Hr Hr' Heq).
  - intros r Hr Hne.
    apply (get_row req (review_id r) w' Hh' Hk'); [|done].
    rewrite Hrev. by apply list_elem_of_filter.
  - intros b Hb Hne.
    apply (get_row req (business_id b) w' Hh' Hk'); [|done].
    simpl. by apply list_elem_of_filter.
Qed.

Lemma delete_business_cascades_witness :
  let w' := snd (delete_lodging 1 stocked_world) in
  fst (delete_lodging 1 stocked_world) = Response BEmpty 204 ∧
  get_business example_request 1 w' =
    (Response (BObj BUSINESS_NOT_FOUND) 404, w') ∧
  get_review example_request 1 w' =
    (Response (BObj REVIEW_NOT_FOUND) 404, w').
Proof.
  intros w'.
  assert (primary_keys (committed stocked_world)) as Hk.
  { apply (run_primary_keys example_request
             [CreateBusiness cafe; CreateReview praise] fresh_world).
    unfold primary_keys. simpl. split_and!; constructor. }
  destruct (delete_business_cascades example_request 1 stocked_world)
    as (H204 & Hb & Hr & _).
  - reflexivity.
  - exact Hk.
  - exists {| business_id := 1; owner_id := 7; name := "Cafe";
              street_address := "1 Main St"; city := "Bend"; state := "OR";
              zip_code := 97701 |}.
    split; [|reflexivity]. apply list_elem_of_singleton. reflexivity.
  - split; [exact H204|]. split; [exact Hb|].
    apply (Hr {| review_id := 1; user_id := 5; review_business_id := 1;
                 stars := 4; review_text := Some "Good coffee" |});
      [|reflexivity].
    apply list_elem_of_singleton. reflexivity.
Defined.

(* ===================================================================== *)
(** ** Updating a business and reading it back *)

(** Update-Business on a store that serves its calls. *)
Lemma edit_business_healthy (req : request) (id : Z) (content : dict)
    (t : tables) (l : list exn) :
  let w := {| fail_after := None; committed := t; log := l |} in
  edit_business req id content w =
  if missing_field business_fields content then
    (Response (BObj MISSING_ATTRIBUTES) 400, w)
  else
    match filter (λ r, business_id r = id) (businesses t) with
    | [] => (Response (BObj BUSINESS_NOT_FOUND) 404, w)
    | [_] =>
        match business_to_update id content with
        | inl e => (Unhandled e, w)
        | inr new =>
            (Response (BObj (business_entry req new)) 200,
             {| fail_after := None; committed := tables_with_business id new t;
                log := l |})
        end
    | _ => (Unhandled MultipleResultsFound, w)
    end.
Proof.
  intros w. unfold edit_business.
  destruct (missing_field business_fields content); [done|].
  unfold select_business, update_business, business_to_update.
  unfold_M. simpl.
  destruct (filter _ (businesses t)) as [|row [|row2 rest]]; simpl;
    [done| |done].
  destruct (bind_INT (getitem content "owner_id")) as [e|o] eqn:Ho;
    simpl; [done|].
  destruct (bind_VARCHAR 50 (getitem content "name")) as [e|nm] eqn:Hn;
    simpl; [done|].
  destruct (bind_VARCHAR 100 _) as [e|a] eqn:Ha; simpl; [done|].
  destruct (bind_VARCHAR 50 (getitem content "city")) as [e|c] eqn:Hc;
    simpl; [done|].
  destruct (bind_VARCHAR 2 _) as [e|s] eqn:Hs; simpl; [done|].
  destruct (bind_INT (getitem content "zip_code")) as [e|z] eqn:Hz;
    simpl; [done|].
  apply bind_int_inr in Ho as [-> _]. apply bind_int_inr in Hz as [-> _].
  apply bind_VARCHAR_inr in Hn as [-> _]. apply bind_VARCHAR_inr in Ha as [-> _].
  apply bind_VARCHAR_inr in Hc as [-> _]. apply bind_VARCHAR_inr in Hs as [-> _].
  done.
Qed.




(* ===================================================================== *)
(** ** Creating a review and reading it back *)



(* ===================================================================== *)
(** ** The listings by owner and by user *)

(** X9.  Businesses-for-Owner and Reviews-for-User on a store that serves
    its calls are always answered 200, with one object for each stored
    row of the owner (of the user) and for no other row; when there is
    none the answer is still 200, with an empty array.  The world stays
    as it was. *)
Theorem listings_by_owner_and_user (req : request) (who : Z) (w : world) :
  healthy w →
  (∃ rows,
     businesses_for_owner req who w =
       (Response (BList (map (business_entry req) rows)) 200, w) ∧
     (∀ r, r ∈ rows ↔ r ∈ businesses (committed w) ∧ owner_id r = who) ∧
     ((∀ r, r ∈ businesses (committed w) → owner_id r ≠ who) → rows = [])) ∧
  (∃ rows,
     reviews_for_user req who w =
       (Response (BList (map (review_entry req) rows)) 200, w) ∧
     (∀ r, r ∈ rows ↔ r ∈ reviews (committed w) ∧ user_id r = who) ∧
     ((∀ r, r ∈ reviews (committed w) → user_id r ≠ who) → rows = [])).
Proof.
  destruct w as [f t l]. unfold healthy. simpl. intros ->. split.
  - exists (filter (λ r, owner_id r = who) (businesses t)). split_and!.
    + unfold businesses_for_owner, select_businesses_of_owner.
      unfold_M. done.
    + intros r. rewrite list_elem_of_filter. tauto.
    + intros Hn. by apply filter_key_absent.
  - exists (filter (λ r, user_id r = who) (reviews t)). split_and!.
    + unfold reviews_for_user, select_reviews_of_user. unfold_M. done.
    + intros r. rewrite list_elem_of_filter. tauto.
    + intros Hn. by apply filter_key_absent.
Qed.

Lemma listings_by_owner_and_user_witness :
  healthy stocked_world ∧
  businesses_for_owner example_request 8 stocked_world =
    (Response (BList []) 200, stocked_world) ∧
  (∃ e, reviews_for_user example_request 5 stocked_world =
          (Response (BList [e]) 200, stocked_world) ∧
        e !! "stars" = Some (VInt 4)).
Proof.
  assert (healthy stocked_world) as Hh by reflexivity.
  destruct (listings_by_owner_and_user example_request 8 stocked_world Hh)
    as [(rows & Hget & _ & Hnone) _].
  destruct (listings_by_owner_and_user example_request 5 stocked_world Hh)
    as [_ (rows5 & Hget5 & Hin5 & _)].
  split; [exact Hh|]. split.
  - rewrite Hget, Hnone; [reflexivity|].
    intros r Hr.
    change (businesses (committed stocked_world)) with
      [{| business_id := 1; owner_id := 7; name := "Cafe";
          street_address := "1 Main St"; city := "Bend"; state := "OR";
          zip_code := 97701 |}] in Hr.
    apply list_elem_of_singleton in Hr as ->. simpl. lia.
  - eexists. split; [by vm_compute|reflexivity].
Defined.

(* ===================================================================== *)
(** ** Walking the pages *)

Lemma follow_next_all (req : request) (limit : Z) (t : tables) (l : list exn)
    (fuel : nat) (offset : Z) :
  let w := {| fail_after := None; committed := t; log := l |} in
  let sorted := merge_sort by_business_id (businesses t) in
  0 < limit ≤ LIMIT_MAX →
  Z.of_nat (length (businesses t)) ≤ LIMIT_MAX →
  0 ≤ offset ≤ LIMIT_MAX →
  (length (drop (Z.to_nat offset) sorted) < fuel)%nat →
  concat (map page_entries (follow_next fuel req offset limit w)) =
    map (business_entry req) (drop (Z.to_nat offset) sorted) ∧
  ∃ entries, last (follow_next fuel req offset limit w) =
             Some (BPage entries None).
Proof.
  intros w sorted Hl Hlen. revert offset.
  assert (length sorted = length (businesses t)) as Hsl.
  { unfold sorted. by rewrite merge_sort_Permutation. }
  induction fuel as [|fuel IH]; intros offset Ho Hfuel; [lia|].
  simpl. unfold w. rewrite get_all_businesses_healthy. fold w. simpl.
  rewrite bool_decide_eq_true_2 by lia. fold sorted.
  set (rows := take (Z.to_nat limit) (drop (Z.to_nat offset) sorted)).
  case_bool_decide as Hshort.
  - simpl. rewrite app_nil_r. split; [|by eexists].
    f_equal. unfold rows. apply take_ge. unfold rows in Hshort.
    rewrite length_take in Hshort. lia.
  - assert (length rows = Z.to_nat limit) as Hfull.
    { unfold rows in *. rewrite length_take in *. lia. }
    assert (Z.to_nat limit ≤ length (drop (Z.to_nat offset) sorted))%nat
      as Hrest.
    { unfold rows in Hfull. rewrite length_take in Hfull. lia. }
    rewrite length_drop in Hrest.
    destruct (IH (offset + limit)) as [Hcat Hlast].
    + lia.
    + rewrite length_drop in *. lia.
    + simpl. rewrite Hcat. split.
      * rewrite <- map_app. f_equal. unfold rows.
        replace (Z.to_nat (offset + limit))
          with (Z.to_nat offset + Z.to_nat limit)%nat by lia.
        rewrite <- drop_drop. apply take_drop.
      * destruct Hlast as [entries Hlast]. exists entries.
        destruct (follow_next fuel req (offset + limit) limit w)
          as [|p ps] eqn:Hf; [done|].
        by rewrite last_cons, Hlast.
Qed.

(** X10.  A client that starts at an [offset] and follows the [next]
    links with a positive [limit], on a store that serves its calls, is
    served every business from that offset on exactly once, in ascending
    order of id, and the walk ends on a page whose [next] is null.
    (Fewer businesses than 2^64, and more pages allowed than there are
    businesses.) *)
Theorem follow_next_enumerates (req : request) (offset limit : Z) (w : world)
    (fuel : nat) :
  healthy w →
  0 < limit ≤ LIMIT_MAX →
  0 ≤ offset ≤ LIMIT_MAX →
  Z.of_nat (length (businesses (committed w))) ≤ LIMIT_MAX →
  (length (businesses (committed w)) < fuel)%nat →
  ∃ sorted,
    sorted ≡ₚ businesses (committed w) ∧
    Sorted by_business_id sorted ∧
    concat (map page_entries (follow_next fuel req offset limit w)) =
      map (business_entry req) (drop (Z.to_nat offset) sorted) ∧
    ∃ entries, last (follow_next fuel req offset limit w) =
               Some (BPage entries None).
Proof.
  destruct w as [f t l]. unfold healthy. simpl. intros -> Hl Ho Hlen Hfuel.
  exists (merge_sort by_business_id (businesses t)).
  split; [apply merge_sort_Permutation|].
  split; [apply Sorted_merge_sort; intros a b; unfold by_business_id; lia|].
  apply follow_next_all; try done.
  rewrite length_drop, merge_sort_Permutation. lia.
Qed.

Lemma follow_next_enumerates_witness :
  let w := run example_request
             [CreateBusiness cafe; CreateBusiness cafe; CreateBusiness cafe]
             fresh_world in
  length (follow_next 4 example_request 0 2 w) = 2%nat ∧
  ∃ sorted,
    sorted ≡ₚ businesses (committed w) ∧
    concat (map page_entries (follow_next 4 example_request 0 2 w)) =
      map (business_entry example_request) (drop (Z.to_nat 0) sorted) ∧
    ∃ entries, last (follow_next 4 example_request 0 2 w) =
               Some (BPage entries None).
Proof.
  intros w. split; [by vm_compute|].
  destruct (follow_next_enumerates example_request 0 2 w 4)
    as (sorted & Hperm & _ & Hcat & Hlast).
  - reflexivity.
  - unfold LIMIT_MAX. lia.
  - unfold LIMIT_MAX. lia.
  - by vm_compute.
  - vm_compute. lia.
  - exists sorted. split; [exact Hperm|]. split; [exact Hcat|exact Hlast].
Defined.

(* ===================================================================== *)
(** ** The creating calls *)

(** X11.  Create-Business and Create-Review never let an exception of
    the store out: whatever the store does, the outcome is a response;
    and a 500 carries the fixed body, leaves the committed tables as they
    were and has logged one exception. *)
Theorem create_calls_catch (req : request) (content : dict) (w : world) :
  (∃ b s,
     fst (create_business req content w) = Response b s ∧
     (s = 500 →
      b = BObj UNABLE_TO_CREATE ∧
      committed (snd (create_business req content w)) = committed w ∧
      ∃ e, log (snd (create_business req content w)) = e :: log w)) ∧
  (∃ b s,
     fst (create_review req content w) = Response b s ∧
     (s = 500 →
      b = BObj UNABLE_TO_CREATE ∧
      committed (snd (create_review req content w)) = committed w ∧
      ∃ e, log (snd (create_review req content w)) = e :: log w)).
Proof.
  split.
  - destruct (create_business_catches req content w)
      as (b & s & Hr & [->|[->|(-> & Hb & Hc & Hl)]]);
      exists b; eexists; (split; [exact Hr|]); done.
  - destruct (create_review_catches req content w)
      as (b & s & Hr & [->|[->|[->|[->|(-> & Hb & Hc & Hl)]]]]);
      exists b; eexists; (split; [exact Hr|]); done.
Qed.

(** A Create-Business call answered 201, read backwards. *)
Lemma create_business_201_inv (req : request) (content : dict)
    (w : world) (b : body) :
  fst (create_business req content w) = Response b 201 →
  ∃ row, business_to_insert content (committed w) = inr row ∧
         b = BObj (created_business req content (business_id row)).
Proof.
  destruct w as [f t l]. unfold create_business.
  destruct (missing_field _ _); [by intros [=]|].
  unfold insert_business, business_to_insert.
  destruct f as [[|[|[|[|n]]]]|]; unfold_M; simpl; try (by intros [=]).
  all: destruct (bind_INT (getitem content "owner_id")) as [e|o];
    simpl; try (by intros [=]).
  all: destruct (bind_VARCHAR 50 (getitem content "name")) as [e|nm];
    simpl; try (by intros [=]).
  all: destruct (bind_VARCHAR 100 _) as [e|a]; simpl; try (by intros [=]).
  all: destruct (bind_VARCHAR 50 (getitem content "city")) as [e|c];
    simpl; try (by intros [=]).
  all: destruct (bind_VARCHAR 2 _) as [e|s]; simpl; try (by intros [=]).
  all: destruct (bind_INT (getitem content "zip_code")) as [e|z];
    simpl; try (by intros [=]).
  all: case_bool_decide; simpl; try (by intros [=]).
  all: intros [= <-]; eexists; split; reflexivity.
Qed.

(** A Create-Review call answered 201, read backwards. *)
Lemma create_review_201_inv (req : request) (content : dict)
    (w : world) (b : body) :
  fst (create_review req content w) = Response b 201 →
  ∃ row, review_to_insert content (committed w) = inr row ∧
         b = BObj (created_review req content (review_id row)).
Proof.
  destruct w as [f t l]. unfold create_review.
  destruct (missing_field _ _); [by intros [=]|].
  unfold select_1_business, select_1_review, insert_review, review_to_insert,
    created_review, created_text.
  destruct f as [[|[|[|[|[|[|n]]]]]]|]; unfold_M; simpl; try (by intros [=]).
  all: destruct (filter _ (businesses t)) as [|rb rbs]; simpl;
    try (by intros [=]).
  all: destruct (filter _ (reviews t)) as [|rr rrs]; simpl;
    try (by intros [=]).
  all: destruct (bind_INT _) as [e|u]; simpl; try (by intros [=]).
  all: destruct (bind_INT_UNSIGNED _) as [e|bb]; simpl; try (by intros [=]).
  all: destruct (bind_SMALLINT _) as [e|s]; simpl; try (by intros [=]).
  all: destruct (bind_VARCHAR_NULL _ _) as [e|x]; simpl; try (by intros [=]).
  all: case_bool_decide; simpl; try (by intros [=]).
  all: case_bool_decide; simpl; try (by intros [=]).
  all: intros [= <-]; eexists; split; reflexivity.
Qed.

Lemma handle_counters (req : request) (c : call) (w : world) :
  businesses_auto (committed w) ≤
    businesses_auto (committed (snd (handle req c w))) ∧
  reviews_auto (committed w) ≤
    reviews_auto (committed (snd (handle req c w))).
Proof.
  destruct c; try (rewrite reads_committed; done); simpl.
  - destruct (create_business_committed req content w)
      as [->|(row & Hi & ->)]; [done|].
    apply business_to_insert_inr in Hi as (_ & _ & _ & _ & _ & _ & Hid).
    simpl. lia.
  - destruct (edit_business_committed req id content w)
      as [->|(new & ->)]; done.
  - destruct (delete_lodging_committed id w) as [->| ->]; done.
  - destruct (create_review_committed req content w)
      as [->|(row & Hi & _ & ->)]; [done|].
    apply review_to_insert_inr in Hi as (_ & _ & _ & _ & Hid).
    simpl. lia.
  - destruct (edit_review_committed req id content w)
      as [->|(row & s & x & _ & _ & _ & ->)]; done.
  - destruct (delete_review_committed id w) as [->| ->]; done.
Qed.

Lemma run_counters (req : request) (cs : list call) (w : world) :
  businesses_auto (committed w) ≤ businesses_auto (committed (run req cs w)) ∧
  reviews_auto (committed w) ≤ reviews_auto (committed (run req cs w)).
Proof.
  revert w. induction cs as [|c cs IH]; intros w; [done|].
  simpl. destruct (handle_counters req c w), (IH (snd (handle req c w))). lia.
Qed.

(** X12.  Ids are never given out twice.  Take a store that keeps its
    primary keys, a business (a review) stored in it, and any run of
    calls after that, deletions included.  A Create-Business
    (Create-Review) call answered 201 after the run returns an [id]
    different from the id of that business (review). *)
Theorem ids_never_reused (req : request) (cs : list call) (content : dict)
    (w0 : world) (d : dict) :
  primary_keys (committed w0) →
  (fst (create_business req content (run req cs w0)) = Response (BObj d) 201 →
   ∀ old, old ∈ businesses (committed w0) →
          d !! "id" ≠ Some (VInt (business_id old))) ∧
  (fst (create_review req content (run req cs w0)) = Response (BObj d) 201 →
   ∀ old, old ∈ reviews (committed w0) →
          d !! "id" ≠ Some (VInt (review_id old))).
Proof.
  intros (_ & Hb & _ & Hr). destruct (run_counters req cs w0) as [Hcb Hcr].
  rewrite Forall_forall in Hb. rewrite Forall_forall in Hr. split.
  - intros (row & Hi & Hd)%create_business_201_inv old Hold.
    injection Hd as ->.
    apply business_to_insert_inr in Hi as (_ & _ & _ & _ & _ & _ & Hid).
    specialize (Hb old Hold). simpl in Hb.
    change (created_business req content (business_id row) !! "id")
      with (Some (VInt (business_id row))).
    intros [= Heq]. lia.
  - intros (row & Hi & Hd)%create_review_201_inv old Hold.
    injection Hd as ->.
    apply review_to_insert_inr in Hi as (_ & _ & _ & _ & Hid).
    specialize (Hr old Hold). simpl in Hr.
    change (created_review req content (review_id row) !! "id")
      with (Some (VInt (review_id row))).
    intros [= Heq]. lia.
Qed.

Lemma ids_never_reused_witness :
  let w := run example_request [DeleteBusiness 1] stocked_world in
  ∃ d, fst (create_business example_request cafe w) = Response (BObj d) 201 ∧
       d !! "id" = Some (VInt 2) ∧
       d !! "id" ≠ Some (VInt 1).
Proof.
  intros w.
  assert (primary_keys (committed stocked_world)) as Hk.
  { apply (run_primary_keys example_request
             [CreateBusiness cafe; CreateReview praise] fresh_world).
    unfold primary_keys. simpl. split_and!; constructor. }
  exists (created_business example_request cafe 2).
  assert (fst (create_business example_request cafe w) =
          Response (BObj (created_business example_request cafe 2)) 201)
    as H201 by (by vm_compute).
  split; [exact H201|]. split; [reflexivity|].
  destruct (ids_never_reused example_request [DeleteBusiness 1] cafe
              stocked_world (created_business example_request cafe 2) Hk)
    as [Hnew _].
  apply (Hnew H201
           {| business_id := 1; owner_id := 7; name := "Cafe";
              street_address := "1 Main St"; city := "Bend"; state := "OR";
              zip_code := 97701 |}).
  apply list_elem_of_singleton. reflexivity.
Defined.

(* ===================================================================== *)
(** ** Deleting and replacing a review *)

(** X13.  Delete-Review of a stored review, on a store that serves its
    calls and keeps its primary keys, is answered 204.  Right after,
    Get-Review on the id is answered 404 and deleting it again is
    answered 404 and changes nothing; every other review is read back as
    before, and the businesses are as they were. *)
Theorem delete_review_then_read (req : request) (id : Z) (w : world) :
  healthy w →
  primary_keys (committed w) →
  (∃ row, row ∈ reviews (committed w) ∧ review_id row = id) →
  let w' := snd (delete_review id w) in
  fst (delete_review id w) = Response BEmpty 204 ∧
  get_review req id w' = (Response (BObj REVIEW_NOT_FOUND) 404, w') ∧
  delete_review id w' = (Response (BObj REVIEW_NOT_FOUND) 404, w') ∧
  (∀ r, r ∈ reviews (committed w) → review_id r ≠ id →
     get_review req (review_id r) w' =
       (Response (BObj (review_entry req r)) 200, w')) ∧
  businesses (committed w') = businesses (committed w).
Proof.
  destruct w as [f t l]. unfold healthy. simpl.
  intros -> Hk (row & Hrow & Hid).
  rewrite delete_review_healthy. simpl.
  pose proof Hk as (_ & _ & Hnr & _).
  assert (filter (λ r, review_id r = id) (reviews t) = [row]) as Hf.
  { rewrite <- Hid. by apply filter_key_singleton. }
  set (w' := {| fail_after := None; committed := tables_without_review id t;
                log := l |}).
  assert (healthy w') as Hh' by reflexivity.
  assert (primary_keys (committed w')) as Hk'
    by (by apply primary_keys_without_review).
  assert (∀ r, r ∈ reviews (committed w') → review_id r ≠ id) as Hgone.
  { simpl. intros r Hr. by apply list_elem_of_filter in Hr as [? _]. }
  split_and!.
  - by rewrite Hf.
  - by apply (get_row req id w' Hh' Hk').
  - unfold w'. rewrite delete_review_healthy.
    assert (filter (λ r, review_id r = id)
              (reviews (tables_without_review id t)) = [])
      as Hnil by (by apply filter_key_absent).
    rewrite Hnil. simpl. do 2 f_equal.
    unfold tables_without_review. simpl.
    rewrite (filter_none_id (λ r, review_id r = id)); [done|].
    simpl in Hnil. by rewrite Hnil.
  - intros r Hr Hne.
    apply (get_row req (review_id r) w' Hh' Hk'); [|done].
    simpl. by apply list_elem_of_filter.
  - done.
Qed.

Lemma delete_review_then_read_witness :
  let w' := snd (delete_review 1 stocked_world) in
  fst (delete_review 1 stocked_world) = Response BEmpty 204 ∧
  get_review example_request 1 w' =
    (Response (BObj REVIEW_NOT_FOUND) 404, w') ∧
  delete_review 1 w' = (Response (BObj REVIEW_NOT_FOUND) 404, w').
Proof.
  intros w'.
  assert (primary_keys (committed stocked_world)) as Hk.
  { apply (run_primary_keys example_request
             [CreateBusiness cafe; CreateReview praise] fresh_world).
    unfold primary_keys. simpl. split_and!; constructor. }
  destruct (delete_review_then_read example_request 1 stocked_world)
    as (H204 & Hget & Hagain & _).
  - reflexivity.
  - exact Hk.
  - exists {| review_id := 1; user_id := 5; review_business_id := 1;
              stars := 4; review_text := Some "Good coffee" |}.
    split; [|reflexivity]. apply list_elem_of_singleton. reflexivity.
  - split; [exact H204|]. split; [exact Hget|exact Hagain].
Defined.

Lemma with_connect_log {A : Type} (block : M A) (w : world) :
  log (snd (with_connect block w)) = log w.
Proof.
  unfold with_connect. destruct (fail_after w) as [[|n]|]; [done| |];
    by destruct (block _).
Qed.

Lemma respond_log (r : (exn + body * Z) * world) :
  log (snd (respond r)) = log (snd r).
Proof. by destruct r as [[e|[b s]] w]. Qed.

(** X14.  The five reading calls are safe: whatever the store does,
    Get-Business, Get-All-Businesses, Businesses-for-Owner, Get-Review
    and Reviews-for-User leave the committed tables and the log exactly
    as they were. *)
Theorem reading_calls_change_nothing (req : request) (id : Z)
    (offset limit : option Z) (w : world) :
  let same (r : outcome * world) :=
    committed (snd r) = committed w ∧ log (snd r) = log w in
  same (get_business req id w) ∧
  same (get_all_businesses req offset limit w) ∧
  same (businesses_for_owner req id w) ∧
  same (get_review req id w) ∧
  same (reviews_for_user req id w).
Proof.
  intros same. unfold same. split_and!.
  - apply (reads_committed req (GetBusiness id) w I).
  - unfold get_business. by rewrite respond_log, with_connect_log.
  - apply (reads_committed req (GetAllBusinesses offset limit) w I).
  - unfold get_all_businesses. by rewrite respond_log, with_connect_log.
  - apply (reads_committed req (BusinessesForOwner id) w I).
  - unfold businesses_for_owner. by rewrite respond_log, with_connect_log.
  - apply (reads_committed req (GetReview id) w I).
  - unfold get_review. by rewrite respond_log, with_connect_log.
  - apply (reads_committed req (ReviewsForUser id) w I).
  - unfold reviews_for_user. by rewrite respond_log, with_connect_log.
Qed.

Lemma at_most_one_eq {A : Type} (l : list A) (x y : A) :
  (length l ≤ 1)%nat → x ∈ l → y ∈ l → y = x.
Proof.
  destruct l as [|a [|b l]]; simpl; intros Hl Hx Hy.
  - by apply not_elem_of_nil in Hx.
  - apply list_elem_of_singleton in Hx, Hy. congruence.
  - lia.
Qed.

(** X15.  What the 409 body advises works.  Take a store that serves
    its calls and keeps its primary keys, its foreign keys and one review
    per pair, a stored review, and a complete Create-Review body for the
    business and the user of that review.  The call is answered 409 and
    changes nothing; Delete-Review of the stored review is answered 204;
    and the same Create-Review call, right after, is no longer refused by
    either check: it is answered 201, or 500 when the store refuses one
    of its values. *)
Theorem delete_then_review_again (req : request) (content : dict)
    (old : review_row) (w : world) :
  healthy w →
  primary_keys (committed w) →
  foreign_keys (committed w) →
  unique_reviews (committed w) →
  old ∈ reviews (committed w) →
  (∀ field, field ∈ review_fields → is_Some (content !! field)) →
  getitem content "business_id" = VInt (review_business_id old) →
  getitem content "user_id" = VInt (user_id old) →
  let w1 := snd (delete_review (review_id old) w) in
  create_review req content w = (Response (BObj ALREADY_REVIEWED) 409, w) ∧
  fst (delete_review (review_id old) w) = Response BEmpty 204 ∧
  ∃ b s, fst (create_review req content w1) = Response b s ∧
         (s = 201 ∨ s = 500).
Proof.
  destruct w as [f t l]. unfold healthy. simpl.
  intros -> Hk Hfk Hu Hold Hc Hb Hus.
  pose proof Hk as (_ & _ & Hnr & _).
  apply missing_field_false in Hc as Hm.
  assert (business_exists t (VInt (review_business_id old))) as Hbe.
  { unfold foreign_keys in Hfk. rewrite Forall_forall in Hfk.
    specialize (Hfk old Hold). unfold business_exists, sql_eq.
    eapply Exists_impl; [exact Hfk|]. simpl. intros r ->. done. }
  assert (old ∈ reviews_of_pair (review_business_id old) (user_id old) t)
    as Hpair.
  { unfold reviews_of_pair. by apply list_elem_of_filter. }
  split_and!.
  - rewrite create_review_healthy, Hm, Hb, Hus.
    rewrite bool_decide_eq_true_2 by done.
    rewrite bool_decide_eq_true_2; [done|].
    apply review_exists_pair. intros Hnil. rewrite Hnil in Hpair.
    by apply not_elem_of_nil in Hpair.
  - rewrite delete_review_healthy. simpl.
    by rewrite (filter_key_singleton review_id _ _ Hnr Hold).
  - rewrite delete_review_healthy. simpl.
    rewrite create_review_healthy, Hm, Hb, Hus.
    rewrite bool_decide_eq_true_2 by done.
    rewrite bool_decide_eq_false_2.
    + destruct (review_to_insert _ _); eexists _, _; split; eauto.
    + rewrite review_exists_pair. intros Hne. apply Hne.
      apply filter_nil_iff. rewrite Exists_exists.
      intros (r & Hr & Hrb & Hru). simpl in Hr.
      apply list_elem_of_filter in Hr as [Hid Hr].
      apply Hid. f_equal.
      apply (at_most_one_eq _ old r (Hu _ _) Hpair).
      unfold reviews_of_pair. by apply list_elem_of_filter.
Qed.

Lemma delete_then_review_again_witness :
  let w1 := snd (delete_review 1 stocked_world) in
  create_review example_request praise stocked_world =
    (Response (BObj ALREADY_REVIEWED) 409, stocked_world) ∧
  fst (delete_review 1 stocked_world) = Response BEmpty 204 ∧
  ∃ b, fst (create_review example_request praise w1) = Response b 201.
Proof.
  intros w1.
  set (cs := [CreateBusiness cafe; CreateReview praise]).
  assert (primary_keys (committed stocked_world)) as Hk.
  { apply (run_primary_keys example_request cs fresh_world).
    unfold primary_keys. simpl. split_and!; constructor. }
  assert (foreign_keys (committed stocked_world)) as Hfk.
  { apply (run_foreign_keys example_request cs fresh_world). constructor. }
  assert (unique_reviews (committed stocked_world)) as Hu.
  { apply (run_unique_reviews example_request cs fresh_world).
    intros b u. unfold reviews_of_pair. simpl. lia. }
  destruct (delete_then_review_again example_request praise
              {| review_id := 1; user_id := 5; review_business_id := 1;
                 stars := 4; review_text := Some "Good coffee" |}
              stocked_world eq_refl Hk Hfk Hu)
    as (H409 & H204 & _).
  - apply list_elem_of_singleton. reflexivity.
  - by apply missing_field_false.
  - reflexivity.
  - reflexivity.
  - split; [exact H409|]. split; [exact H204|].
    eexists. by vm_compute.
Defined.

(* ===================================================================== *)
(** ** Editing a review and reading it back *)

(** Edit-Review on a store that serves its calls. *)
Lemma edit_review_healthy (req : request) (id : Z) (content : dict)
    (t : tables) (l : list exn) :
  let w := {| fail_after := None; committed := t; log := l |} in
  edit_review req id content w =
  if bool_decide (content !! "stars" = None) then
    (Response (BObj MISSING_ATTRIBUTES) 400, w)
  else
    match filter (λ r, review_id r = id) (reviews t) with
    | [] => (Response (BObj REVIEW_NOT_FOUND) 404, w)
    | [row] =>
        match bind_SMALLINT (getitem content "stars") with
        | inl e => (Unhandled e, w)
        | inr s =>
            match bind_VARCHAR_NULL 1000 (edited_text content row) with
            | inl e => (Unhandled e, w)
            | inr x =>
                (Response (BObj (review_entry req
                   {| review_id := id; user_id := user_id row;
                      review_business_id := review_business_id row;
                      stars := s; review_text := x |})) 200,
                 {| fail_after := None;
                    committed := tables_with_review id s x t; log := l |})
            end
        end
    | _ => (Unhandled MultipleResultsFound, w)
    end.
Proof.
  intros w. unfold edit_review. case_bool_decide; [done|].
  unfold select_review, update_review, edited_text, getitem.
  unfold_M. simpl.
  destruct (filter _ (reviews t)) as [|row [|row2 rest]]; simpl;
    [done| |done].
  destruct (bind_SMALLINT _) as [e|s] eqn:Hs; simpl; [done|].
  destruct (bind_VARCHAR_NULL 1000 _) as [e|x] eqn:Hx; simpl; [done|].
  apply bind_int_inr in Hs as [Hs _]. apply bind_VARCHAR_NULL_inr in Hx.
  unfold review_entry. simpl. rewrite <- Hs, <- Hx. done.
Qed.



(* ===================================================================== *)
(** ** When an exception leaves a handler *)

Lemma bind_int_inl (lo hi : Z) (v : value) (e : exn) :
  bind_int lo hi v = inl e → e = DataError ∨ e = IntegrityError.
Proof.
  destruct v as [|z|s]; simpl; [intros [= <-]; auto| |intros [= <-]; auto].
  case_bool_decide; [done|]. intros [= <-]. auto.
Qed.

Lemma bind_VARCHAR_inl (n : nat) (v : value) (e : exn) :
  bind_VARCHAR n v = inl e → e = DataError ∨ e = IntegrityError.
Proof.
  destruct v as [|z|s]; simpl; [intros [= <-]; auto|intros [= <-]; auto|].
  case_bool_decide; [done|]. intros [= <-]. auto.
Qed.

Lemma bind_VARCHAR_NULL_inl (n : nat) (v : value) (e : exn) :
  bind_VARCHAR_NULL n v = inl e → e = DataError ∨ e = IntegrityError.
Proof.
  destruct v as [|z|s]; simpl; [done|intros [= <-]; auto|].
  case_bool_decide; [done|]. intros [= <-]. auto.
Qed.

Lemma business_to_update_inl (id : Z) (content : dict) (e : exn) :
  business_to_update id content = inl e → e = DataError ∨ e = IntegrityError.
Proof.
  unfold business_to_update.
  destruct (bind_INT (getitem content "owner_id")) as [e1|o] eqn:Ho.
  { intros [= <-]. by eapply bind_int_inl. }
  destruct (bind_VARCHAR 50 (getitem content "name")) as [e1|nm] eqn:Hn.
  { intros [= <-]. by eapply bind_VARCHAR_inl. }
  destruct (bind_VARCHAR 100 _) as [e1|a] eqn:Ha.
  { intros [= <-]. by eapply bind_VARCHAR_inl. }
  destruct (bind_VARCHAR 50 (getitem content "city")) as [e1|c] eqn:Hc.
  { intros [= <-]. by eapply bind_VARCHAR_inl. }
  destruct (bind_VARCHAR 2 _) as [e1|s] eqn:Hs.
  { intros [= <-]. by eapply bind_VARCHAR_inl. }
  destruct (bind_INT (getitem content "zip_code")) as [e1|z] eqn:Hz; [|done].
  intros [= <-]. by eapply bind_int_inl.
Qed.

(** X17.  On a store that serves its calls and keeps its primary keys, an
    exception leaves a handler in three cases only: Update-Business and
    Edit-Review with a value the store refuses for its column, and
    Get-All-Businesses with an [offset] or [limit] the store refuses.
    The creating, deleting and other reading calls always return a
    response. *)
Theorem exceptions_on_a_serving_store (req : request) (c : call) (w : world)
    (e : exn) :
  healthy w →
  primary_keys (committed w) →
  fst (handle req c w) = Unhandled e →
  match c with
  | EditBusiness _ _ | EditReview _ _ => e = DataError ∨ e = IntegrityError
  | GetAllBusinesses offset limit =>
      e = ProgrammingError ∧
      ¬ (0 ≤ default 3 limit ≤ LIMIT_MAX ∧ 0 ≤ default 0 offset ≤ LIMIT_MAX)
  | _ => False
  end.
Proof.
  destruct w as [f t l]. unfold healthy. simpl. intros -> (Hb & _ & Hr & _).
  assert (∀ id, (length (filter (λ r, business_id r = id) (businesses t)) ≤ 1)%nat)
    as Hb1.
  { intros id. destruct (filter _ (businesses t)) as [|r rs] eqn:Hf;
      [simpl; lia|].
    assert (r ∈ filter (λ r, business_id r = id) (businesses t)) as Hin
      by (rewrite Hf; set_solver).
    apply list_elem_of_filter in Hin as [<- Hin].
    rewrite (filter_key_singleton business_id _ _ Hb Hin) in Hf.
    injection Hf as <-. simpl. lia. }
  assert (∀ id, (length (filter (λ r, review_id r = id) (reviews t)) ≤ 1)%nat)
    as Hr1.
  { intros id. destruct (filter _ (reviews t)) as [|r rs] eqn:Hf;
      [simpl; lia|].
    assert (r ∈ filter (λ r, review_id r = id) (reviews t)) as Hin
      by (rewrite Hf; set_solver).
    apply list_elem_of_filter in Hin as [<- Hin].
    rewrite (filter_key_singleton review_id _ _ Hr Hin) in Hf.
    injection Hf as <-. simpl. lia. }
  destruct c; simpl.
  - rewrite create_business_healthy.
    destruct (missing_field _ _); [done|].
    by destruct (business_to_insert _ _).
  - rewrite get_business_healthy. specialize (Hb1 id).
    destruct (filter _ (businesses t)) as [|r [|r2 rs]]; simpl in *;
      [done|done|lia].
  - rewrite get_all_businesses_healthy. simpl.
    case_bool_decide; [done|]. by intros [= <-].
  - rewrite edit_business_healthy. specialize (Hb1 id).
    destruct (missing_field _ _); [done|].
    destruct (filter _ (businesses t)) as [|r [|r2 rs]]; simpl in *;
      [done| |lia].
    destruct (business_to_update id content) as [e'|new] eqn:Hu; [|done].
    intros [= <-]. by eapply business_to_update_inl.
  - rewrite delete_lodging_healthy. by case_bool_decide.
  - unfold businesses_for_owner, select_businesses_of_owner. unfold_M. done.
  - rewrite create_review_healthy.
    destruct (missing_field _ _); [done|].
    case_bool_decide; [|done]. case_bool_decide; [done|].
    by destruct (review_to_insert _ _).
  - rewrite get_review_healthy. specialize (Hr1 id).
    destruct (filter _ (reviews t)) as [|r [|r2 rs]]; simpl in *;
      [done|done|lia].
  - rewrite edit_review_healthy. specialize (Hr1 id).
    case_bool_decide; [done|].
    destruct (filter _ (reviews t)) as [|r [|r2 rs]]; simpl in *;
      [done| |lia].
    destruct (bind_SMALLINT _) as [e'|s] eqn:Hs.
    { intros [= <-]. by eapply bind_int_inl. }
    destruct (bind_VARCHAR_NULL 1000 _) as [e'|x] eqn:Hx; [|done].
    intros [= <-]. by eapply bind_VARCHAR_NULL_inl.
  - rewrite delete_review_healthy. by case_bool_decide.
  - unfold reviews_for_user, select_reviews_of_user. unfold_M. done.
Qed.

Lemma exceptions_on_a_serving_store_witness :
  let loud : dict := {[ "stars" := VInt 40000 ]} in
  fst (handle example_request (EditReview 1 loud) stocked_world) =
    Unhandled DataError ∧
  (DataError = DataError ∨ DataError = IntegrityError).
Proof.
  intros loud.
  assert (fst (handle example_request (EditReview 1 loud) stocked_world) =
          Unhandled DataError) as H by (by vm_compute).
  split; [exact H|].
  apply (exceptions_on_a_serving_store example_request (EditReview 1 loud)
           stocked_world DataError eq_refl); [|exact H].
  apply (run_primary_keys example_request
           [CreateBusiness cafe; CreateReview praise] fresh_world).
  unfold primary_keys. simpl. split_and!; constructor.
Defined.
